(** * GridItem: the interaction controller of one grid cell

    A shallow embedding of [src/lib/GridItem.jsx]: the drag handlers
    ([onDragStart], [onDrag], [onDragStop]), the resize handler
    ([onResizeHandler] and its three entry points) and the external move
    injector ([moveDroppingItem]).

    Conventions of the embedding.
    - A JavaScript number is a rational [Q]: arithmetic is exact, so rounding
      error, NaN and signed zeros of IEEE doubles are outside the model, and
      so is a division by zero ([q / 0] is [0] in [Q]).  [Infinity] only
      occurs as an upper bound (the defaults of [maxW] and [maxH]); upper
      bounds have the type [bound].
    - [this] is the record [Instance]; a handler takes the props and the
      instance and returns an [Outcome]: the instance it leaves behind and
      the host callbacks it invoked, with the message of the exception when
      it threw.
    - A callback slot of the props holds a function or is absent
      ([option Callback]); calling a callback is recorded, not executed.
    - The helpers imported from [./utils] and [./calculateUtils] are not part
      of the file: [calcXY], [calcWH], [calcGridColWidth], [calcGridItemWHPx]
      and [resizeItemInDirection] form the interface [ImportedHelpers] the
      handlers are written against, [clamp] is modelled from the
      specification. *)

From Stdlib Require Import QArith Qminmax Qround Lqa Lia List String Bool.
Import ListNotations.
Open Scope Q_scope.

(** ** Data model *)

(** The raw DOM event: opaque to the controller, passed through to the host. *)
Inductive Event : Type := RawEvent (id : nat).

(** A host function stored in a callback slot. *)
Inductive Callback : Type := HostFn (id : nat).

(** [type PartialPosition = { top: number, left: number }] *)
Record PartialPosition : Type := mkPartialPosition {
  top : Q;
  left : Q
}.

(** [Position]: a pixel box [{ left, top, width, height }]. *)
Record Position : Type := mkPosition {
  pos_left : Q;
  pos_top : Q;
  pos_width : Q;
  pos_height : Q
}.

(** The [size] object of a resize event.  The gesture layer delivers
    [{width, height}]; the direction resolver returns boxes that also carry
    [top] and [left].  Both are objects of one shape whose [top] and [left]
    may be missing. *)
Record Size : Type := mkSize {
  size_top : option Q;
  size_left : option Q;
  width : Q;
  height : Q
}.

(** [{ ...position, ...updatedSize }]: the fields present in [updatedSize]
    override those of [position]. *)
Definition spread (position : Position) (updatedSize : Size) : Position :=
  {| pos_left := match size_left updatedSize with
                 | Some l => l
                 | None => pos_left position
                 end;
     pos_top := match size_top updatedSize with
                | Some t => t
                | None => pos_top position
                end;
     pos_width := width updatedSize;
     pos_height := height updatedSize |}.

(** [ResizeHandleAxis]: the eight compass tokens. *)
Inductive ResizeHandleAxis : Type :=
  | s_ | w_ | e_ | n_ | sw_ | nw_ | se_ | ne_.

(** [DroppingPosition = { left, top, e }] *)
Record DroppingPosition : Type := mkDroppingPosition {
  dp_left : Q;
  dp_top : Q;
  dp_e : Event
}.

(** What the handlers read of the DOM: [getBoundingClientRect()] of the node
    and of its [offsetParent], and the parent's scroll offsets and client
    height.  [offsetParent] is [null] for a node without positioned
    ancestor. *)
Record DOMRect : Type := mkDOMRect {
  rect_left : Q;
  rect_top : Q
}.

Record OffsetParent : Type := mkOffsetParent {
  parentRect : DOMRect;
  scrollLeft : Q;
  scrollTop : Q;
  clientHeight : Q
}.

Record HTMLElement : Type := mkHTMLElement {
  offsetParent : option OffsetParent;
  clientRect : DOMRect
}.

(** An upper bound: a number or [Infinity]. *)
Inductive bound : Type :=
  | Finite (q : Q)
  | Infinity.

(** [bound_le q b]: [q <= b] in the order where [Infinity] is the top. *)
Definition bound_le (q : Q) (b : bound) : Prop :=
  match b with
  | Finite hi => q <= hi
  | Infinity => True
  end.

(** [PositionParams], the argument of the coordinate helpers. *)
Record PositionParams : Type := mkPositionParams {
  pp_cols : Q;
  pp_containerPadding : Q * Q;
  pp_containerWidth : Q;
  pp_margin : Q * Q;
  pp_maxRows : bound;
  pp_rowHeight : Q
}.

(** The props the handlers read.  The rendering-only props ([children],
    [style], [isDraggable], ...) are left out. *)
Record Props : Type := mkProps {
  cols : Q;
  containerWidth : Q;
  margin : Q * Q;
  containerPadding : Q * Q;
  rowHeight : Q;
  maxRows : bound;
  isBounded : bool;
  transformScale : Q;
  droppingPosition : option DroppingPosition;
  x : Q;
  y : Q;
  w : Q;
  h : Q;
  minW : Q;
  maxW : bound;
  minH : Q;
  maxH : bound;
  i : string;
  props_onDrag : option Callback;
  props_onDragStart : option Callback;
  props_onDragStop : option Callback;
  props_onResize : option Callback;
  props_onResizeStart : option Callback;
  props_onResizeStop : option Callback
}.

(** [static defaultProps: DefaultProps] *)
Record DefaultProps : Type := mkDefaultProps {
  default_className : string;
  default_cancel : string;
  default_handle : string;
  default_minH : Q;
  default_minW : Q;
  default_maxH : bound;
  default_maxW : bound;
  default_transformScale : Q
}.

Definition defaultProps : DefaultProps :=
  {| default_className := EmptyString;
     default_cancel := EmptyString;
     default_handle := EmptyString;
     default_minH := 1;
     default_minW := 1;
     default_maxH := Infinity;
     default_maxW := Infinity;
     default_transformScale := 1 |}.

(** The mutable fields of the component instance.  [dragging] starts out
    undefined, which is falsy: [false].  [resizing] is undefined, [null] or
    the box stored by the last resize event: an option. *)
Record Instance : Type := mkInstance {
  dragPosition : PartialPosition;
  resizePosition : Position;
  dragging : bool;
  resizing : option Size;
  elementRef : option HTMLElement
}.

Definition initialInstance (node : option HTMLElement) : Instance :=
  {| dragPosition := {| top := 0; left := 0 |};
     resizePosition :=
       {| pos_left := 0; pos_top := 0; pos_width := 0; pos_height := 0 |};
     dragging := false;
     resizing := None;
     elementRef := node |}.

Definition set_drag (st : Instance) (p : PartialPosition) (d : bool)
  : Instance :=
  {| dragPosition := p;
     resizePosition := resizePosition st;
     dragging := d;
     resizing := resizing st;
     elementRef := elementRef st |}.

Definition set_resizing (st : Instance) (r : option Size) : Instance :=
  {| dragPosition := dragPosition st;
     resizePosition := resizePosition st;
     dragging := dragging st;
     resizing := r;
     elementRef := elementRef st |}.

Definition set_resizePosition (st : Instance) (p : Position) : Instance :=
  {| dragPosition := dragPosition st;
     resizePosition := p;
     dragging := dragging st;
     resizing := resizing st;
     elementRef := elementRef st |}.

(** [ReactDraggableCallbackData], as far as the handlers destructure it. *)
Record ReactDraggableCallbackData : Type := mkDragData {
  dd_node : HTMLElement;
  deltaX : Q;
  deltaY : Q
}.

(** [ResizeCallbackData = { node, size, handle }]; [node] may be falsy. *)
Record ResizeCallbackData : Type := mkResizeData {
  rd_node : option HTMLElement;
  rd_size : Size;
  rd_handle : ResizeHandleAxis
}.

(** The payloads handed to the host. *)
Record GridDragEvent : Type := mkGridDragEvent {
  gde_e : Event;
  gde_node : HTMLElement;
  newPosition : PartialPosition
}.

Record GridResizeEvent : Type := mkGridResizeEvent {
  gre_e : Event;
  gre_node : option HTMLElement;
  gre_size : Size;
  gre_handle : ResizeHandleAxis
}.

(** One invocation [callback.call(this, i, a, b, payload)]. *)
Inductive Call : Type :=
  | DragCall (f : Callback) (item : string) (gx gy : Q) (data : GridDragEvent)
  | ResizeCall (f : Callback) (item : string) (gw gh : Q)
      (data : GridResizeEvent).

(** The result of running a handler on an instance. *)
Inductive Outcome : Type :=
  | Returned (st : Instance) (calls : list Call)
  | Thrown (st : Instance) (calls : list Call) (message : string).

Definition final (o : Outcome) : Instance :=
  match o with
  | Returned st _ => st
  | Thrown st _ _ => st
  end.

Definition emitted (o : Outcome) : list Call :=
  match o with
  | Returned _ calls => calls
  | Thrown _ calls _ => calls
  end.

Definition threw (o : Outcome) : bool :=
  match o with
  | Returned _ _ => false
  | Thrown _ _ _ => true
  end.

(** The three names under which [onResizeHandler] is entered. *)
Inductive ResizeHandlerName : Type :=
  | onResizeStop_name
  | onResizeStart_name
  | onResize_name.

(** [this.props[handlerName]] *)
Definition props_handler (props : Props) (handlerName : ResizeHandlerName)
  : option Callback :=
  match handlerName with
  | onResizeStop_name => props_onResizeStop props
  | onResizeStart_name => props_onResizeStart props
  | onResize_name => props_onResize props
  end.

(** [handlerName === "onResizeStop"] *)
Definition is_onResizeStop (handlerName : ResizeHandlerName) : bool :=
  match handlerName with
  | onResizeStop_name => true
  | _ => false
  end.

(** ** Helpers of [./calculateUtils] *)

(** [Math.min(num, upperBound)] with an upper bound that may be [Infinity]. *)
Definition min_bound (num : Q) (upperBound : bound) : Q :=
  match upperBound with
  | Finite hi => Qmin num hi
  | Infinity => num
  end.

(** Modelled from the spec: the body of [clamp] of [./calculateUtils] is
    missing; section 4.1 calls it the standard clamp of a value into
    [[min, max]]: the value capped by the upper bound, then raised to the
    lower bound. *)
Definition clamp (num lowerBound : Q) (upperBound : bound) : Q :=
  Qmax (min_bound num upperBound) lowerBound.

(** [getPositionParams(props = this.props)] *)
Definition getPositionParams (props : Props) : PositionParams :=
  {| pp_cols := cols props;
     pp_containerPadding := containerPadding props;
     pp_containerWidth := containerWidth props;
     pp_margin := margin props;
     pp_maxRows := maxRows props;
     pp_rowHeight := rowHeight props |}.

(** ** The handlers *)

(** The helpers imported from [./utils] and [./calculateUtils] whose bodies
    are not in the file.  The handlers are written against this interface;
    what is proved of them holds for every implementation of it. *)
Class ImportedHelpers : Type := {
  (** [calcXY(positionParams, top, left, w, h)] returns [{x, y}]. *)
  calcXY : PositionParams -> Q -> Q -> Q -> Q -> Q * Q;
  (** [calcWH(positionParams, width, height, x, y, handle)] returns
      [{w, h}]. *)
  calcWH : PositionParams -> Q -> Q -> Q -> Q -> ResizeHandleAxis -> Q * Q;
  (** [calcGridColWidth(positionParams)] *)
  calcGridColWidth : PositionParams -> Q;
  (** [calcGridItemWHPx(gridUnits, colOrRowSize, marginPx)] *)
  calcGridItemWHPx : Q -> Q -> Q -> Q;
  (** [resizeItemInDirection(direction, currentSize, newSize,
      containerWidth)] *)
  resizeItemInDirection : ResizeHandleAxis -> Position -> Size -> Q -> Size
}.

Section Handlers.

Context {helpers : ImportedHelpers}.

(** The position [onDragStart] reads off the DOM. *)
Definition startPosition (props : Props) (node : HTMLElement)
    (parent : OffsetParent) : PartialPosition :=
  let transformScale := transformScale props in
  let cLeft := rect_left (clientRect node) / transformScale in
  let pLeft := rect_left (parentRect parent) / transformScale in
  let cTop := rect_top (clientRect node) / transformScale in
  let pTop := rect_top (parentRect parent) / transformScale in
  {| top := cTop - pTop + scrollTop parent;
     left := cLeft - pLeft + scrollLeft parent |}.

Definition onDragStart (props : Props) (st : Instance) (e : Event)
    (data : ReactDraggableCallbackData) : Outcome :=
  match props_onDragStart props with
  | None => Returned st []
  | Some onDragStart =>
    let node := dd_node data in
    match offsetParent node with
    | None => Returned st []
    | Some parent =>
      let newPosition := startPosition props node parent in
      let st' := set_drag st newPosition true in
      let '(x, y) :=
        calcXY (getPositionParams props) (top newPosition)
          (left newPosition) (w props) (h props) in
      Returned st'
        [DragCall onDragStart (i props) x y
           {| gde_e := e; gde_node := node; newPosition := newPosition |}]
    end
  end.

(** [offsetParent.clientHeight - calcGridItemWHPx(h, rowHeight,
    margin[1])] *)
Definition bottomBoundary (props : Props) (parent : OffsetParent) : Q :=
  clientHeight parent
  - calcGridItemWHPx (h props) (rowHeight props) (snd (margin props)).

(** [containerWidth - calcGridItemWHPx(w, colWidth, margin[0])] *)
Definition rightBoundary (props : Props) : Q :=
  let colWidth := calcGridColWidth (getPositionParams props) in
  containerWidth props
  - calcGridItemWHPx (w props) colWidth (fst (margin props)).

Definition onDrag (props : Props) (st : Instance) (e : Event)
    (data : ReactDraggableCallbackData) : Outcome :=
  match props_onDrag props with
  | None => Returned st []
  | Some onDrag =>
    if negb (dragging st) then
      Thrown st [] "onDrag called before onDragStart."
    else
      let node := dd_node data in
      let top0 := top (dragPosition st) + deltaY data in
      let left0 := left (dragPosition st) + deltaX data in
      let positionParams := getPositionParams props in
      let '(top1, left1) :=
        if isBounded props then
          match offsetParent node with
          | Some parent =>
            (clamp (top0 - snd (containerPadding props)) 0
               (Finite (bottomBoundary props parent)),
             clamp (left0 - fst (containerPadding props)) 0
               (Finite (rightBoundary props)))
          | None => (top0, left0)
          end
        else (top0, left0) in
      let newPosition := {| top := top1; left := left1 |} in
      let st' := set_drag st newPosition (dragging st) in
      let '(x, y) := calcXY positionParams top1 left1 (w props) (h props) in
      Returned st'
        [DragCall onDrag (i props) x y
           {| gde_e := e; gde_node := node; newPosition := newPosition |}]
  end.

Definition onDragStop (props : Props) (st : Instance) (e : Event)
    (data : ReactDraggableCallbackData) : Outcome :=
  match props_onDragStop props with
  | None => Returned st []
  | Some onDragStop =>
    if negb (dragging st) then
      Thrown st [] "onDragEnd called before onDragStart."
    else
      let node := dd_node data in
      let left0 := left (dragPosition st) in
      let top0 := top (dragPosition st) in
      let newPosition := {| top := top0; left := left0 |} in
      let st' := set_drag st {| top := 0; left := 0 |} false in
      let '(x, y) :=
        calcXY (getPositionParams props) top0 left0 (w props) (h props) in
      Returned st'
        [DragCall onDragStop (i props) x y
           {| gde_e := e; gde_node := node; newPosition := newPosition |}]
  end.

(** The corrected size: the direction resolver is only consulted when the
    event carries a node. *)
Definition updatedSize (props : Props) (data : ResizeCallbackData)
    (position : Position) : Size :=
  match rd_node data with
  | Some _ =>
    resizeItemInDirection (rd_handle data) position (rd_size data)
      (containerWidth props)
  | None => rd_size data
  end.

Definition onResizeHandler (props : Props) (st : Instance) (e : Event)
    (data : ResizeCallbackData) (position : Position)
    (handlerName : ResizeHandlerName) : Outcome :=
  match props_handler props handlerName with
  | None => Returned st []
  | Some handler =>
    let size' := updatedSize props data position in
    let st1 :=
      match rd_node data with
      | Some _ =>
        set_resizing st
          (if is_onResizeStop handlerName then None else Some size')
      | None => st
      end in
    let '(w0, h0) :=
      calcWH (getPositionParams props) (width size') (height size')
        (x props) (y props) (rd_handle data) in
    let w1 := clamp w0 (Qmax (minW props) 1) (maxW props) in
    let h1 := clamp h0 (minH props) (maxH props) in
    let st2 := set_resizePosition st1 (spread position size') in
    Returned st2
      [ResizeCall handler (i props) w1 h1
         {| gre_e := e; gre_node := rd_node data; gre_size := size';
            gre_handle := rd_handle data |}]
  end.

Definition onResizeStop props st e data position : Outcome :=
  onResizeHandler props st e data position onResizeStop_name.

Definition onResizeStart props st e data position : Outcome :=
  onResizeHandler props st e data position onResizeStart_name.

Definition onResize props st e data position : Outcome :=
  onResizeHandler props st e data position onResize_name.

(** ** The external move injector *)

(** The handler call [moveDroppingItem] decides on. *)
Inductive Synthesized : Type :=
  | SynthDragStart (e : Event) (data : ReactDraggableCallbackData)
  | SynthDrag (e : Event) (data : ReactDraggableCallbackData).

(** [a !== b] on numbers. *)
Definition neq_number (a b : Q) : bool := negb (Qeq_bool a b).

(** The decision of [moveDroppingItem(prevProps)]; [prevDropping] is
    [prevProps.droppingPosition], undefined on mount. *)
Definition droppingAction (props : Props) (st : Instance)
    (prevDropping : option DroppingPosition) : option Synthesized :=
  match droppingPosition props with
  | None => None
  | Some droppingPosition =>
    match elementRef st with
    | None => None
    | Some node =>
      let '(prevLeft, prevTop) :=
        match prevDropping with
        | Some prev => (dp_left prev, dp_top prev)
        | None => (0, 0)
        end in
      let shouldDrag :=
        (dragging st && neq_number (dp_left droppingPosition) prevLeft)
        || neq_number (dp_top droppingPosition) prevTop in
      if negb (dragging st) then
        Some (SynthDragStart (dp_e droppingPosition)
                {| dd_node := node;
                   deltaX := dp_left droppingPosition;
                   deltaY := dp_top droppingPosition |})
      else if shouldDrag then
        Some (SynthDrag (dp_e droppingPosition)
                {| dd_node := node;
                   deltaX :=
                     dp_left droppingPosition - left (dragPosition st);
                   deltaY :=
                     dp_top droppingPosition - top (dragPosition st) |})
      else None
    end
  end.

Definition moveDroppingItem (props : Props) (st : Instance)
    (prevDropping : option DroppingPosition) : Outcome :=
  match droppingAction props st prevDropping with
  | None => Returned st []
  | Some (SynthDragStart e data) => onDragStart props st e data
  | Some (SynthDrag e data) => onDrag props st e data
  end.

(** [componentDidMount() { this.moveDroppingItem({}) }] *)
Definition componentDidMount (props : Props) (st : Instance) : Outcome :=
  moveDroppingItem props st None.

(** [componentDidUpdate(prevProps)] *)
Definition componentDidUpdate (props : Props) (st : Instance)
    (prevProps : Props) : Outcome :=
  moveDroppingItem props st (droppingPosition prevProps).

(** The overrides [render] passes to [calcGridItemPosition]. *)
Definition dragOverride (st : Instance) : option PartialPosition :=
  if dragging st then Some (dragPosition st) else None.

Definition resizeOverride (st : Instance) : option Position :=
  match resizing st with
  | Some _ => Some (resizePosition st)
  | None => None
  end.

(** ** Sequences of events *)

(** Run [k] on the instance an outcome leaves behind; an exception ends
    the run. *)
Definition andThen (o : Outcome) (k : Instance -> Outcome) : Outcome :=
  match o with
  | Returned st calls =>
    match k st with
    | Returned st' calls' => Returned st' (calls ++ calls')
    | Thrown st' calls' message => Thrown st' (calls ++ calls') message
    end
  | Thrown st calls message => Thrown st calls message
  end.

(** A gesture's drag-move events, delivered in order. *)
Fixpoint dragMoves (props : Props) (st : Instance)
    (moves : list (Event * ReactDraggableCallbackData)) : Outcome :=
  match moves with
  | [] => Returned st []
  | (e, data) :: rest =>
    andThen (onDrag props st e data) (fun st' => dragMoves props st' rest)
  end.

End Handlers.

(** ** An implementation of the imported helpers *)

Module SpecHelpers.

(** [Math.round]: the nearest integer, halves rounded up. *)
Definition round (q : Q) : Q := inject_Z (Qfloor (q + (1 # 2))).

(** Modelled from the spec: the body of [calcGridColWidth] is missing;
    section 4.1 gives the column width as
    [(containerWidthPx - marginPx.x*(columnCount-1)
      - containerPaddingPx.x*2) / columnCount]. *)
Definition calcGridColWidth (positionParams : PositionParams) : Q :=
  (pp_containerWidth positionParams
   - fst (pp_margin positionParams) * (pp_cols positionParams - 1)
   - fst (pp_containerPadding positionParams) * 2)
  / pp_cols positionParams.

(** Modelled from the spec: the body of [calcGridItemWHPx] is missing;
    section 4.1 gives the pixel extent of [w] grid units as
    [w*columnWidth + (w-1)*marginPx.x]. *)
Definition calcGridItemWHPx (gridUnits colOrRowSize marginPx : Q) : Q :=
  gridUnits * colOrRowSize + (gridUnits - 1) * marginPx.

(** Modelled from the spec: the body of [calcXY] is missing; section 4.1
    describes it as the inverse of the placement formulas
    [left = x*(columnWidth+marginPx.x)] and its vertical mirror, rounded
    to the nearest grid cell. *)
Definition calcXY (positionParams : PositionParams) (top left w h : Q)
  : Q * Q :=
  let colWidth := calcGridColWidth positionParams in
  (round (left / (colWidth + fst (pp_margin positionParams))),
   round (top / (pp_rowHeight positionParams
                 + snd (pp_margin positionParams)))).

(** Modelled from the spec: the body of [calcWH] is missing; section 4.1
    describes it as the inverse of
    [width = w*columnWidth + (w-1)*marginPx.x] and its vertical mirror,
    rounded to the nearest cell count.  How the rounding depends on the
    handle is left open there; the handle is not consulted here. *)
Definition calcWH (positionParams : PositionParams) (width height x y : Q)
    (handle : ResizeHandleAxis) : Q * Q :=
  let colWidth := calcGridColWidth positionParams in
  (round ((width + fst (pp_margin positionParams))
          / (colWidth + fst (pp_margin positionParams))),
   round ((height + snd (pp_margin positionParams))
          / (pp_rowHeight positionParams
             + snd (pp_margin positionParams)))).

Definition westish (handle : ResizeHandleAxis) : bool :=
  match handle with
  | w_ | nw_ | sw_ => true
  | _ => false
  end.

Definition northish (handle : ResizeHandleAxis) : bool :=
  match handle with
  | n_ | ne_ | nw_ => true
  | _ => false
  end.

(** Modelled from the spec: the body of [resizeItemInDirection] is
    missing; by section 4.2 a west-ish handle keeps the right edge
    ([left = anchor.left + anchor.width - proposed.width], not below 0), a
    north-ish handle keeps the bottom edge in the same way, and the other
    handles keep [left] and [top]; the size is the proposed one. *)
Definition resizeItemInDirection (direction : ResizeHandleAxis)
    (currentSize : Position) (newSize : Size) (containerWidth : Q) : Size :=
  {| size_top :=
       Some (if northish direction
             then Qmax 0 (pos_top currentSize + pos_height currentSize
                          - height newSize)
             else pos_top currentSize);
     size_left :=
       Some (if westish direction
             then Qmax 0 (pos_left currentSize + pos_width currentSize
                          - width newSize)
             else pos_left currentSize);
     width := width newSize;
     height := height newSize |}.

Definition helpers : ImportedHelpers :=
  Build_ImportedHelpers calcXY calcWH calcGridColWidth calcGridItemWHPx
    resizeItemInDirection.

End SpecHelpers.

(** ** Concrete inputs *)

Module Scenario.

(** The grid of scenario A of the specification: 12 columns in 1200px,
    margins and paddings of 10px, rows of 30px. *)
Definition gridProps (itemW itemH : Q) (bounded : bool)
    (dropping : option DroppingPosition) (callbacks : bool) : Props :=
  let slot (id : nat) :=
    if callbacks then Some (HostFn id) else None in
  {| cols := 12;
     containerWidth := 1200;
     margin := (10, 10);
     containerPadding := (10, 10);
     rowHeight := 30;
     maxRows := Infinity;
     isBounded := bounded;
     transformScale := default_transformScale defaultProps;
     droppingPosition := dropping;
     x := 0;
     y := 0;
     w := itemW;
     h := itemH;
     minW := default_minW defaultProps;
     maxW := default_maxW defaultProps;
     minH := default_minH defaultProps;
     maxH := default_maxH defaultProps;
     i := "a";
     props_onDrag := slot 1%nat;
     props_onDragStart := slot 2%nat;
     props_onDragStop := slot 3%nat;
     props_onResize := slot 4%nat;
     props_onResizeStart := slot 5%nat;
     props_onResizeStop := slot 6%nat |}.

(** A host that registered all six callbacks, and one that registered
    none. *)
Definition props : Props := gridProps 2 1 true None true.
Definition silentProps : Props := gridProps 2 1 true None false.

(** The same host with the size constraints [1 <= w <= 6] and
    [1 <= h <= 3]. *)
Definition constrainedProps : Props :=
  {| cols := cols props;
     containerWidth := containerWidth props;
     margin := margin props;
     containerPadding := containerPadding props;
     rowHeight := rowHeight props;
     maxRows := maxRows props;
     isBounded := isBounded props;
     transformScale := transformScale props;
     droppingPosition := droppingPosition props;
     x := x props;
     y := y props;
     w := w props;
     h := h props;
     minW := 1;
     maxW := Finite 6;
     minH := 1;
     maxH := Finite 3;
     i := i props;
     props_onDrag := props_onDrag props;
     props_onDragStart := props_onDragStart props;
     props_onDragStop := props_onDragStop props;
     props_onResize := props_onResize props;
     props_onResizeStart := props_onResizeStart props;
     props_onResizeStop := props_onResizeStop props |}.

(** A positioned ancestor at (20, 30) of the given height, not scrolled. *)
Definition container (clientHeight : Q) : OffsetParent :=
  {| parentRect := {| rect_left := 20; rect_top := 30 |};
     scrollLeft := 0;
     scrollTop := 0;
     clientHeight := clientHeight |}.

(** A node rendered [dx] to the right of and [dy] below its ancestor. *)
Definition nodeAt (dx dy clientHeight : Q) : HTMLElement :=
  {| offsetParent := Some (container clientHeight);
     clientRect := {| rect_left := 20 + dx; rect_top := 30 + dy |} |}.

Definition node : HTMLElement := nodeAt 50 50 600.

(** A node without positioned ancestor. *)
Definition detached : HTMLElement :=
  {| offsetParent := None;
     clientRect := {| rect_left := 70; rect_top := 80 |} |}.

Definition event : Event := RawEvent 0.

Definition dragData (n : HTMLElement) (dx dy : Q)
  : ReactDraggableCallbackData :=
  {| dd_node := n; deltaX := dx; deltaY := dy |}.

(** An instance in the middle of a drag, at the given position. *)
Definition draggingAt (t l : Q) : Instance :=
  set_drag (initialInstance (Some node)) {| top := t; left := l |} true.

(** The resize of scenario C: the box (100, 100, 200, 200) and a proposed
    size of 150 by 150. *)
Definition anchorBox : Position :=
  {| pos_left := 100; pos_top := 100; pos_width := 200;
     pos_height := 200 |}.

Definition proposed : Size :=
  {| size_top := None; size_left := None; width := 150; height := 150 |}.

Definition resizeData (n : option HTMLElement) (handle : ResizeHandleAxis)
  : ResizeCallbackData :=
  {| rd_node := n; rd_size := proposed; rd_handle := handle |}.

(** An external drag hovering the item. *)
Definition dropAt (l t : Q) : DroppingPosition :=
  {| dp_left := l; dp_top := t; dp_e := event |}.

End Scenario.

(** ** The gesture layer *)

(** The events the wrapped [DraggableCore] and [Resizable] deliver.
    [mixinDraggable] wires [onStart], [onDrag] and [onStop] to the three
    drag handlers; [mixinResizable] wires the three resize callbacks,
    curried with a pixel box, to [onResizeHandler]. *)
Inductive GestureEvent : Type :=
  | DragStartEvent (e : Event) (data : ReactDraggableCallbackData)
  | DragEvent (e : Event) (data : ReactDraggableCallbackData)
  | DragStopEvent (e : Event) (data : ReactDraggableCallbackData)
  | ResizeEvent (handlerName : ResizeHandlerName) (e : Event)
      (data : ResizeCallbackData) (position : Position).

Definition isResizeEvent (ev : GestureEvent) : bool :=
  match ev with
  | ResizeEvent _ _ _ _ => true
  | _ => false
  end.

(** The callback slot of the props an event is reported through. *)
Definition slotOf (props : Props) (ev : GestureEvent) : option Callback :=
  match ev with
  | DragStartEvent _ _ => props_onDragStart props
  | DragEvent _ _ => props_onDrag props
  | DragStopEvent _ _ => props_onDragStop props
  | ResizeEvent handlerName _ _ _ => props_handler props handlerName
  end.

(** The function and the item id of a recorded call. *)
Definition calledFunction (c : Call) : Callback :=
  match c with
  | DragCall f _ _ _ _ => f
  | ResizeCall f _ _ _ _ => f
  end.

Definition calledItem (c : Call) : string :=
  match c with
  | DragCall _ item _ _ _ => item
  | ResizeCall _ item _ _ _ => item
  end.

(** The deltas of a list of drag-moves added to a position one after the
    other, in the order of delivery: [((start + d1) + d2) + ...]. *)
Definition applyDeltas (start : PartialPosition)
    (moves : list (Event * ReactDraggableCallbackData)) : PartialPosition :=
  fold_left
    (fun position move =>
       {| top := top position + deltaY (snd move);
          left := left position + deltaX (snd move) |})
    moves start.

(** A drag-move that is not clamped: bounded mode is off, or the node has no
    [offsetParent]. *)
Definition unclamped (props : Props) (data : ReactDraggableCallbackData)
  : bool :=
  negb (isBounded props)
  || match offsetParent (dd_node data) with
     | Some _ => false
     | None => true
     end.

Section Gestures.

Context {helpers : ImportedHelpers}.

Definition dispatch (props : Props) (st : Instance) (ev : GestureEvent)
  : Outcome :=
  match ev with
  | DragStartEvent e data => onDragStart props st e data
  | DragEvent e data => onDrag props st e data
  | DragStopEvent e data => onDragStop props st e data
  | ResizeEvent handlerName e data position =>
    match handlerName with
    | onResizeStop_name => onResizeStop props st e data position
    | onResizeStart_name => onResizeStart props st e data position
    | onResize_name => onResize props st e data position
    end
  end.

(** Events delivered in order; an exception ends the run. *)
Fixpoint deliver (props : Props) (st : Instance) (events : list GestureEvent)
  : Outcome :=
  match events with
  | [] => Returned st []
  | ev :: rest =>
    andThen (dispatch props st ev) (fun st' => deliver props st' rest)
  end.

End Gestures.

(** A gesture's drag-moves as events. *)
Definition dragEvents (moves : list (Event * ReactDraggableCallbackData))
  : list GestureEvent :=
  map (fun move => DragEvent (fst move) (snd move)) moves.

(** ** The props of the wrapped [DraggableCore] *)

(** [this.props.cancel ? "," + this.props.cancel : ""]: an empty string is
    falsy. *)
Definition cancelSuffix (cancel : string) : string :=
  match cancel with
  | EmptyString => EmptyString
  | String _ _ => append "," cancel
  end.

Record DraggableCoreProps : Type := mkDraggableCoreProps {
  dc_disabled : bool;
  dc_handle : string;
  dc_cancel : string;
  dc_scale : Q
}.

(** [mixinDraggable(child, isDraggable)], as far as the props it computes
    are concerned; [handle] and [cancel] are the props of these names. *)
Definition mixinDraggable (transformScale : Q) (handle cancel : string)
    (isDraggable : bool) : DraggableCoreProps :=
  {| dc_disabled := negb isDraggable;
     dc_handle := handle;
     dc_cancel := append ".react-resizable-handle" (cancelSuffix cancel);
     dc_scale := transformScale |}.

(** ** Concrete gestures *)

Module Gesture.

(** Three drag-moves on the node of the scenario. *)
Definition moves : list (Event * ReactDraggableCallbackData) :=
  [ (Scenario.event, Scenario.dragData Scenario.node 30 10);
    (Scenario.event, Scenario.dragData Scenario.node (-5) 20);
    (Scenario.event, Scenario.dragData Scenario.node 15 (-40)) ].

(** A whole drag: start, the three moves, stop. *)
Definition drag : list GestureEvent :=
  DragStartEvent Scenario.event (Scenario.dragData Scenario.node 0 0)
  :: dragEvents moves
  ++ [DragStopEvent Scenario.event (Scenario.dragData Scenario.node 0 0)].

(** A south-east resize: start, one step, stop. *)
Definition resize : list GestureEvent :=
  [ ResizeEvent onResizeStart_name Scenario.event
      (Scenario.resizeData (Some Scenario.node) se_) Scenario.anchorBox;
    ResizeEvent onResize_name Scenario.event
      (Scenario.resizeData (Some Scenario.node) se_) Scenario.anchorBox;
    ResizeEvent onResizeStop_name Scenario.event
      (Scenario.resizeData (Some Scenario.node) se_) Scenario.anchorBox ].

(** The host of the scenario with bounded mode switched off. *)
Definition freeProps : Props := Scenario.gridProps 2 1 false None true.

(** The same host without an [onDragStop] callback. *)
Definition noStopProps : Props :=
  {| cols := cols freeProps;
     containerWidth := containerWidth freeProps;
     margin := margin freeProps;
     containerPadding := containerPadding freeProps;
     rowHeight := rowHeight freeProps;
     maxRows := maxRows freeProps;
     isBounded := isBounded freeProps;
     transformScale := transformScale freeProps;
     droppingPosition := droppingPosition freeProps;
     x := x freeProps;
     y := y freeProps;
     w := w freeProps;
     h := h freeProps;
     minW := minW freeProps;
     maxW := maxW freeProps;
     minH := minH freeProps;
     maxH := maxH freeProps;
     i := i freeProps;
     props_onDrag := props_onDrag freeProps;
     props_onDragStart := props_onDragStart freeProps;
     props_onDragStop := None;
     props_onResize := props_onResize freeProps;
     props_onResizeStart := props_onResizeStart freeProps;
     props_onResizeStop := props_onResizeStop freeProps |}.

(** An unbounded host on which an external drag hovers at the given
    position. *)
Definition droppingProps (l t : Q) : Props :=
  Scenario.gridProps 2 1 false (Some (Scenario.dropAt l t)) true.

End Gesture.

(** ** The scenarios of the specification on the modelled helpers *)

(** Scenario A: the column is 1070/12 px wide and an item of two columns
    [2 * 1070/12 + 10] px. *)
Example scenario_A :
  SpecHelpers.calcGridColWidth (getPositionParams Scenario.props)
  == 1070 / 12
  /\ SpecHelpers.calcGridItemWHPx 2
       (SpecHelpers.calcGridColWidth (getPositionParams Scenario.props)) 10
     == 2 * (1070 / 12) + 10.
Proof. split; reflexivity. Qed.

(** Scenario C: resizing the box (100, 100, 200, 200) to 150 by 150 by its
    north-west handle keeps the corner (300, 300). *)
Example scenario_C :
  spread Scenario.anchorBox
    (SpecHelpers.resizeItemInDirection nw_ Scenario.anchorBox
       Scenario.proposed 1200)
  = {| pos_left := 150; pos_top := 150; pos_width := 150;
       pos_height := 150 |}.
Proof. vm_compute. reflexivity. Qed.

(** ** Properties of [clamp] *)

(** Case analysis on every [Qmax] and [Qmin] of the goal and of the
    hypotheses, closed by linear arithmetic. *)
Ltac name_minmax t spec :=
  let q := fresh "q" in
  let E := fresh "E" in
  let H := fresh "H" in
  pose proof spec as H;
  remember t as q eqn:E in *;
  clear E;
  destruct H as [[? ?] | [? ?]].

Ltac minmax_cases :=
  repeat match goal with
    | |- context [Qmax ?a ?b] => name_minmax (Qmax a b) (Q.max_spec a b)
    | |- context [Qmin ?a ?b] => name_minmax (Qmin a b) (Q.min_spec a b)
    | _ : context [Qmax ?a ?b] |- _ =>
      name_minmax (Qmax a b) (Q.max_spec a b)
    | _ : context [Qmin ?a ?b] |- _ =>
      name_minmax (Qmin a b) (Q.min_spec a b)
    end;
  try lra.

Lemma clamp_lower (num lowerBound : Q) (upperBound : bound) :
  lowerBound <= clamp num lowerBound upperBound.
Proof. unfold clamp. apply Q.le_max_r. Qed.

Lemma clamp_upper (num lowerBound : Q) (upperBound : bound) :
  bound_le lowerBound upperBound ->
  bound_le (clamp num lowerBound upperBound) upperBound.
Proof.
  unfold clamp, bound_le, min_bound.
  destruct upperBound as [hi | ]; [ | trivial ].
  intros Hord. apply Q.max_lub; [ apply Q.le_min_r | exact Hord ].
Qed.

Lemma clamp_finite_range (num lowerBound hi : Q) :
  lowerBound <= hi ->
  lowerBound <= clamp num lowerBound (Finite hi) <= hi.
Proof.
  intros Hord. split.
  - apply clamp_lower.
  - apply (clamp_upper num lowerBound (Finite hi)). exact Hord.
Qed.

(** A value above the lower bound is strictly decreased by clamping
    something smaller. *)
Lemma clamp_below (num prev lowerBound : Q) (upperBound : bound) :
  num < prev -> lowerBound < prev ->
  clamp num lowerBound upperBound < prev.
Proof.
  unfold clamp, min_bound. intros Hnum Hlo.
  destruct upperBound as [hi | ]; minmax_cases.
Qed.

(** A value that falls to the lower bound or below is clamped to it. *)
Lemma clamp_floor (num lowerBound : Q) (upperBound : bound) :
  num <= lowerBound -> clamp num lowerBound upperBound == lowerBound.
Proof.
  unfold clamp, min_bound. intros Hnum.
  destruct upperBound as [hi | ]; minmax_cases.
Qed.

(** ** Runs of drag-moves *)

(** A drag-move never changes the [dragging] flag, and returns normally
    while it is set; so does a whole run of drag-moves. *)
Lemma onDrag_preserves_dragging (helpers : ImportedHelpers) (props : Props)
    (st : Instance) (e : Event) (data : ReactDraggableCallbackData) :
  dragging (final (onDrag props st e data)) = dragging st.
Proof.
  unfold onDrag.
  destruct (props_onDrag props); [ | reflexivity ].
  destruct (dragging st) eqn:Hd; simpl; [ | exact Hd ].
  destruct (isBounded props); [ destruct (offsetParent (dd_node data)) | ];
    destruct (calcXY _ _ _ _ _); reflexivity.
Qed.

Lemma onDrag_returns_while_dragging (helpers : ImportedHelpers)
    (props : Props) (st : Instance) (e : Event)
    (data : ReactDraggableCallbackData) :
  dragging st = true -> threw (onDrag props st e data) = false.
Proof.
  intros Hd. unfold onDrag.
  destruct (props_onDrag props); [ | reflexivity ].
  rewrite Hd. simpl.
  destruct (isBounded props); [ destruct (offsetParent (dd_node data)) | ];
    destruct (calcXY _ _ _ _ _); reflexivity.
Qed.

Lemma dragMoves_while_dragging (helpers : ImportedHelpers) (props : Props)
    (moves : list (Event * ReactDraggableCallbackData)) :
  forall st : Instance,
    dragging st = true ->
    threw (dragMoves props st moves) = false
    /\ dragging (final (dragMoves props st moves)) = true.
Proof.
  induction moves as [ | [e data] rest IH ]; intros st Hd.
  - split; [ reflexivity | exact Hd ].
  - simpl.
    pose proof (onDrag_returns_while_dragging helpers props st e data Hd)
      as Hret.
    pose proof (onDrag_preserves_dragging helpers props st e data) as Hkeep.
    destruct (onDrag props st e data) as [st1 calls1 | st1 calls1 msg];
      [ | discriminate Hret ].
    simpl in Hkeep. rewrite Hd in Hkeep.
    destruct (IH st1 Hkeep) as [Hret' Hd'].
    simpl. destruct (dragMoves props st1 rest); simpl in *;
      [ split; [ reflexivity | exact Hd' ] | discriminate Hret' ].
Qed.

(** A run that returns normally can be cut in two. *)
Lemma dragMoves_app (helpers : ImportedHelpers) (props : Props)
    (moves more : list (Event * ReactDraggableCallbackData)) :
  forall st : Instance,
    threw (dragMoves props st moves) = false ->
    final (dragMoves props st (moves ++ more))
    = final (dragMoves props (final (dragMoves props st moves)) more)
    /\ threw (dragMoves props st (moves ++ more))
       = threw (dragMoves props (final (dragMoves props st moves)) more).
Proof.
  induction moves as [ | [e data] rest IH ]; intros st Hret.
  - simpl. split; reflexivity.
  - simpl in *.
    destruct (onDrag props st e data) as [st1 calls1 | st1 calls1 msg];
      simpl in *; [ | discriminate Hret ].
    assert (Hrest : threw (dragMoves props st1 rest) = false)
      by (destruct (dragMoves props st1 rest); [ reflexivity | exact Hret ]).
    destruct (IH st1 Hrest) as [Hfin Hthr].
    destruct (dragMoves props st1 rest) as [st2 calls2 | st2 calls2 msg2];
      [ | discriminate Hrest ].
    simpl in Hfin, Hthr. simpl.
    destruct (dragMoves props st1 (rest ++ more));
      destruct (dragMoves props st2 more); simpl in *;
      split; congruence.
Qed.

(** ** Drag start *)

(** C6: a drag-start on a node whose [offsetParent] is null computes no
    position, calls no callback and leaves the instance (the [dragging] flag
    and the drag position included) as it was. *)
Theorem onDragStart_without_offsetParent (helpers : ImportedHelpers)
    (props : Props) (st : Instance) (e : Event)
    (data : ReactDraggableCallbackData) :
  offsetParent (dd_node data) = None ->
  onDragStart props st e data = Returned st [].
Proof.
  intros Hnull. unfold onDragStart.
  destruct (props_onDragStart props); [ rewrite Hnull | ]; reflexivity.
Qed.

Lemma onDragStart_without_offsetParent_witness :
  offsetParent (dd_node (Scenario.dragData Scenario.detached 0 0)) = None
  /\ onDragStart (helpers := SpecHelpers.helpers) Scenario.props
       (initialInstance (Some Scenario.detached)) Scenario.event
       (Scenario.dragData Scenario.detached 0 0)
     = Returned (initialInstance (Some Scenario.detached)) [].
Proof.
  split.
  - reflexivity.
  - apply (onDragStart_without_offsetParent SpecHelpers.helpers).
    reflexivity.
Defined.

(** C5 (as the handler behaves): with the [onDragStart] callback
    registered, a positioned ancestor and a [transformScale] other than 0,
    [onDragStart] stores
    [left = clientRect.left/transformScale - parentRect.left/transformScale
            + scrollLeft] (and [top] likewise) as the drag position, sets
    [dragging], and calls the callback with the grid cell of that position
    and the position itself as [newPosition].  For a node 50px right of and
    50px below an unscrolled ancestor, with [transformScale] 1, the position
    is (50, 50).  Without the callback the handler returns without any
    effect. *)
Theorem onDragStart_position (helpers : ImportedHelpers) (props : Props)
    (st : Instance) (e : Event) (data : ReactDraggableCallbackData) :
  (forall (parent : OffsetParent) (f : Callback),
      props_onDragStart props = Some f ->
      offsetParent (dd_node data) = Some parent ->
      ~ transformScale props == 0 ->
      let node := dd_node data in
      let scale := transformScale props in
      let position :=
        {| top := rect_top (clientRect node) / scale
                  - rect_top (parentRect parent) / scale + scrollTop parent;
           left := rect_left (clientRect node) / scale
                   - rect_left (parentRect parent) / scale
                   + scrollLeft parent |} in
      let cell :=
        calcXY (getPositionParams props) (top position) (left position)
          (w props) (h props) in
      onDragStart props st e data
      = Returned (set_drag st position true)
          [DragCall f (i props) (fst cell) (snd cell)
             {| gde_e := e; gde_node := node; newPosition := position |}]
      /\ dragPosition (final (onDragStart props st e data)) = position
      /\ dragging (final (onDragStart props st e data)) = true
      /\ (scale == 1 ->
          scrollLeft parent == 0 -> scrollTop parent == 0 ->
          rect_left (clientRect node)
          == rect_left (parentRect parent) + 50 ->
          rect_top (clientRect node) == rect_top (parentRect parent) + 50 ->
          left position == 50 /\ top position == 50))
  /\ (props_onDragStart props = None ->
      onDragStart props st e data = Returned st []).
Proof.
  split.
  - intros parent f Hcb Hparent _ node scale position cell.
    assert (Hrun : onDragStart props st e data
                   = Returned (set_drag st position true)
                       [DragCall f (i props) (fst cell) (snd cell)
                          {| gde_e := e; gde_node := node;
                             newPosition := position |}]).
    { subst cell position scale node.
      unfold onDragStart, startPosition. rewrite Hcb. cbv zeta.
      rewrite Hparent. simpl top. simpl left.
      destruct (calcXY _ _ _ _ _). reflexivity. }
    rewrite Hrun. split; [ reflexivity | ].
    split; [ reflexivity | ]. split; [ reflexivity | ].
    intros Hscale HscrollL HscrollT Hleft Htop.
    subst position. cbv beta iota delta [left top].
    rewrite Hscale, HscrollL, HscrollT, Hleft, Htop.
    split; field.
  - intros Hnone. unfold onDragStart. rewrite Hnone. reflexivity.
Qed.

Lemma onDragStart_position_witness :
  let st := initialInstance (Some Scenario.node) in
  let data := Scenario.dragData Scenario.node 0 0 in
  let o :=
    onDragStart (helpers := SpecHelpers.helpers) Scenario.props st
      Scenario.event data in
  (left (dragPosition (final o)) == 50
   /\ top (dragPosition (final o)) == 50
   /\ dragging (final o) = true
   /\ List.length (emitted o) = 1%nat)
  /\ onDragStart (helpers := SpecHelpers.helpers) Scenario.silentProps st
       Scenario.event data
     = Returned st [].
Proof.
  cbv zeta. split.
  - assert (Hscale : ~ transformScale Scenario.props == 0)
      by (vm_compute; discriminate).
    destruct (onDragStart_position SpecHelpers.helpers Scenario.props
                (initialInstance (Some Scenario.node)) Scenario.event
                (Scenario.dragData Scenario.node 0 0)) as [Hregistered _].
    destruct (Hregistered (Scenario.container 600) (HostFn 2) eq_refl
                eq_refl Hscale)
      as [Hrun [Hpos [Hdrag Hscenario]]].
    cbv zeta in *. rewrite Hrun. simpl final. simpl emitted.
    destruct Hscenario as [Hleft Htop]; try reflexivity.
    repeat split; assumption.
  - destruct (onDragStart_position SpecHelpers.helpers Scenario.silentProps
                (initialInstance (Some Scenario.node)) Scenario.event
                (Scenario.dragData Scenario.node 0 0)) as [_ Hsilent].
    apply Hsilent. reflexivity.
Defined.

(** C5 as stated fails: when the host registered no [onDragStart] callback,
    a drag-start on the node rendered 50px right of and 50px below its
    ancestor leaves the drag position at (0, 0) and the instance idle, and
    calls nothing. *)
Lemma onDragStart_without_callback_counterexample :
  let st := initialInstance (Some Scenario.node) in
  let o :=
    onDragStart (helpers := SpecHelpers.helpers) Scenario.silentProps st
      Scenario.event (Scenario.dragData Scenario.node 0 0) in
  props_onDragStart Scenario.silentProps = None
  /\ offsetParent Scenario.node = Some (Scenario.container 600)
  /\ o = Returned st []
  /\ dragging (final o) = false
  /\ ~ left (dragPosition (final o)) == 50
  /\ ~ top (dragPosition (final o)) == 50.
Proof.
  cbv zeta. repeat split; vm_compute; discriminate.
Qed.

(** ** Drag stop *)

(** C8 (as the handler behaves): with the [onDragStop] callback registered,
    a drag-stop received while dragging calls the callback with the position
    accumulated by the gesture as [newPosition] (and its grid cell), and
    leaves the instance idle with the drag position reset to (0, 0). *)
Theorem onDragStop_emits_and_resets (helpers : ImportedHelpers)
    (props : Props) (st : Instance) (e : Event)
    (data : ReactDraggableCallbackData) (f : Callback) :
  props_onDragStop props = Some f ->
  dragging st = true ->
  let cell :=
    calcXY (getPositionParams props) (top (dragPosition st))
      (left (dragPosition st)) (w props) (h props) in
  onDragStop props st e data
  = Returned (set_drag st {| top := 0; left := 0 |} false)
      [DragCall f (i props) (fst cell) (snd cell)
         {| gde_e := e; gde_node := dd_node data;
            newPosition := dragPosition st |}]
  /\ dragging (final (onDragStop props st e data)) = false
  /\ dragPosition (final (onDragStop props st e data))
     = {| top := 0; left := 0 |}.
Proof.
  intros Hcb Hd cell.
  assert (Hrun : onDragStop props st e data
                 = Returned (set_drag st {| top := 0; left := 0 |} false)
                     [DragCall f (i props) (fst cell) (snd cell)
                        {| gde_e := e; gde_node := dd_node data;
                           newPosition := dragPosition st |}]).
  { unfold onDragStop. rewrite Hcb, Hd. simpl negb. cbv iota.
    subst cell. destruct (calcXY _ _ _ _ _).
    destruct (dragPosition st). reflexivity. }
  rewrite Hrun. repeat split.
Qed.

Lemma onDragStop_emits_and_resets_witness :
  let o :=
    onDragStop (helpers := SpecHelpers.helpers) Scenario.props
      (Scenario.draggingAt 95 85) Scenario.event
      (Scenario.dragData Scenario.node 0 0) in
  map (fun c => match c with
                | DragCall _ _ _ _ payload => Some (newPosition payload)
                | ResizeCall _ _ _ _ _ => None
                end) (emitted o)
  = [Some {| top := 95; left := 85 |}]
  /\ dragging (final o) = false
  /\ dragPosition (final o) = {| top := 0; left := 0 |}.
Proof.
  destruct (onDragStop_emits_and_resets SpecHelpers.helpers Scenario.props
              (Scenario.draggingAt 95 85) Scenario.event
              (Scenario.dragData Scenario.node 0 0) (HostFn 3)
              eq_refl eq_refl)
    as [Hrun [Hidle Hreset]].
  cbv zeta in *. rewrite Hrun. repeat split.
Defined.

(** C8 as stated fails: when the host registered no [onDragStop] callback,
    a drag-stop received while dragging at (95, 85) calls nothing and leaves
    the instance dragging at (95, 85). *)
Lemma onDragStop_without_callback_counterexample :
  let st := Scenario.draggingAt 95 85 in
  let o :=
    onDragStop (helpers := SpecHelpers.helpers) Scenario.silentProps st
      Scenario.event (Scenario.dragData Scenario.node 0 0) in
  props_onDragStop Scenario.silentProps = None
  /\ dragging st = true
  /\ emitted o = []
  /\ dragging (final o) = true
  /\ dragPosition (final o) = {| top := 95; left := 85 |}
  /\ ~ top (dragPosition (final o)) == 0.
Proof.
  cbv zeta. repeat split. vm_compute. discriminate.
Qed.

(** ** Resize *)

(** The grid size [onResizeHandler] reports for a corrected pixel size. *)
Lemma onResizeHandler_run (helpers : ImportedHelpers) (props : Props)
    (st : Instance) (e : Event) (data : ResizeCallbackData)
    (position : Position) (handlerName : ResizeHandlerName) (f : Callback) :
  props_handler props handlerName = Some f ->
  let size' := updatedSize props data position in
  let cells :=
    calcWH (getPositionParams props) (width size') (height size')
      (x props) (y props) (rd_handle data) in
  onResizeHandler props st e data position handlerName
  = Returned
      (set_resizePosition
         match rd_node data with
         | Some _ =>
           set_resizing st
             (if is_onResizeStop handlerName then None else Some size')
         | None => st
         end
         (spread position size'))
      [ResizeCall f (i props)
         (clamp (fst cells) (Qmax (minW props) 1) (maxW props))
         (clamp (snd cells) (minH props) (maxH props))
         {| gre_e := e; gre_node := rd_node data; gre_size := size';
            gre_handle := rd_handle data |}].
Proof.
  intros Hcb size' cells. subst cells size'.
  unfold onResizeHandler. rewrite Hcb.
  destruct (calcWH _ _ _ _ _ _). reflexivity.
Qed.

(** C9: a resize event whose callback is registered but which carries no
    node skips the direction resolver and the override: the callback is
    still called, with the raw proposed size as [size] (and the grid size
    computed from it), [resizing] keeps its value, and [resizePosition]
    becomes the proposed size spread over the anchor box. *)
Theorem onResizeHandler_without_node (helpers : ImportedHelpers)
    (props : Props) (st : Instance) (e : Event) (data : ResizeCallbackData)
    (position : Position) (handlerName : ResizeHandlerName) (f : Callback) :
  props_handler props handlerName = Some f ->
  rd_node data = None ->
  let size := rd_size data in
  let cells :=
    calcWH (getPositionParams props) (width size) (height size)
      (x props) (y props) (rd_handle data) in
  let o := onResizeHandler props st e data position handlerName in
  emitted o
  = [ResizeCall f (i props)
       (clamp (fst cells) (Qmax (minW props) 1) (maxW props))
       (clamp (snd cells) (minH props) (maxH props))
       {| gre_e := e; gre_node := None; gre_size := size;
          gre_handle := rd_handle data |}]
  /\ threw o = false
  /\ resizing (final o) = resizing st
  /\ resizeOverride (final o)
     = match resizing st with
       | Some _ => Some (spread position size)
       | None => None
       end
  /\ resizePosition (final o)
     = {| pos_left := match size_left size with
                      | Some l => l
                      | None => pos_left position
                      end;
          pos_top := match size_top size with
                     | Some t => t
                     | None => pos_top position
                     end;
          pos_width := width size;
          pos_height := height size |}
  /\ dragPosition (final o) = dragPosition st
  /\ dragging (final o) = dragging st.
Proof.
  intros Hcb Hnode size cells o. subst o.
  rewrite (onResizeHandler_run helpers props st e data position handlerName
             f Hcb).
  subst cells size. unfold updatedSize, resizeOverride.
  rewrite Hnode. simpl.
  repeat split.
Qed.

Lemma onResizeHandler_without_node_witness :
  let o :=
    onResize (helpers := SpecHelpers.helpers) Scenario.props
      (initialInstance (Some Scenario.node)) Scenario.event
      (Scenario.resizeData None nw_) Scenario.anchorBox in
  map (fun c => match c with
                | ResizeCall _ _ _ _ payload => Some (gre_size payload)
                | DragCall _ _ _ _ _ => None
                end) (emitted o)
  = [Some Scenario.proposed]
  /\ resizing (final o) = None
  /\ resizePosition (final o)
     = {| pos_left := 100; pos_top := 100; pos_width := 150;
          pos_height := 150 |}.
Proof.
  destruct (onResizeHandler_without_node SpecHelpers.helpers Scenario.props
              (initialInstance (Some Scenario.node)) Scenario.event
              (Scenario.resizeData None nw_) Scenario.anchorBox
              onResize_name (HostFn 4) eq_refl eq_refl)
    as [Hcall [_ [Hres [_ [Hpos _]]]]].
  cbv zeta in *. unfold onResize.
  rewrite Hcall, Hres, Hpos. repeat split.
Defined.

(** C1 (as the handler behaves): a resize event whose callback is not
    registered is ignored altogether: [onResizeHandler] returns at once,
    calls nothing and leaves [resizing], [resizePosition] and the rest of
    the instance untouched. *)
Theorem onResizeHandler_without_callback (helpers : ImportedHelpers)
    (props : Props) (st : Instance) (e : Event) (data : ResizeCallbackData)
    (position : Position) (handlerName : ResizeHandlerName) :
  props_handler props handlerName = None ->
  onResizeHandler props st e data position handlerName = Returned st [].
Proof.
  intros Hcb. unfold onResizeHandler. rewrite Hcb. reflexivity.
Qed.

Lemma onResizeHandler_without_callback_witness :
  props_handler Scenario.silentProps onResize_name = None
  /\ onResizeHandler (helpers := SpecHelpers.helpers) Scenario.silentProps
       (initialInstance (Some Scenario.node)) Scenario.event
       (Scenario.resizeData (Some Scenario.node) nw_) Scenario.anchorBox
       onResize_name
     = Returned (initialInstance (Some Scenario.node)) [].
Proof.
  split.
  - reflexivity.
  - apply (onResizeHandler_without_callback SpecHelpers.helpers).
    reflexivity.
Defined.

(** C1 as stated fails: with no [onResize] callback registered, the resize
    of the box (100, 100, 200, 200) to 150 by 150 by its north-west handle
    stores neither the corrected box (150, 150, 150, 150) as the override
    nor the updated [resizePosition]; the same event with the callback
    registered stores both. *)
Lemma resize_state_without_callback_counterexample :
  let st := initialInstance (Some Scenario.node) in
  let data := Scenario.resizeData (Some Scenario.node) nw_ in
  let corrected :=
    updatedSize (helpers := SpecHelpers.helpers) Scenario.silentProps data
      Scenario.anchorBox in
  let silent :=
    onResize (helpers := SpecHelpers.helpers) Scenario.silentProps st
      Scenario.event data Scenario.anchorBox in
  let notified :=
    onResize (helpers := SpecHelpers.helpers) Scenario.props st
      Scenario.event data Scenario.anchorBox in
  props_handler Scenario.silentProps onResize_name = None
  /\ resizing (final notified) = Some corrected
  /\ resizePosition (final notified) = spread Scenario.anchorBox corrected
  /\ resizing (final silent) = None
  /\ resizing (final silent) <> Some corrected
  /\ resizeOverride (final silent) = None
  /\ resizePosition (final silent) = resizePosition st
  /\ ~ (pos_width (resizePosition (final silent))
        == pos_width (spread Scenario.anchorBox corrected)).
Proof.
  cbv zeta. repeat split; try reflexivity.
  - discriminate.
  - vm_compute. discriminate.
Qed.

(** C7: a resize event whose callback is registered reports a grid width
    [w] with [max(minW, 1) <= w <= maxW] and a grid height [h] with
    [minH <= h <= maxH], provided the bounds are ordered.  Both are the
    clamped results of [calcWH] on the size corrected for the handle, which
    is itself reported unclamped as [size].  The defaults are
    [minW = minH = 1] and [maxW = maxH = Infinity]. *)
Theorem onResizeHandler_grid_bounds (helpers : ImportedHelpers)
    (props : Props) (st : Instance) (e : Event) (data : ResizeCallbackData)
    (position : Position) (handlerName : ResizeHandlerName) (f : Callback) :
  props_handler props handlerName = Some f ->
  bound_le (Qmax (minW props) 1) (maxW props) ->
  bound_le (minH props) (maxH props) ->
  exists (gw gh : Q) (payload : GridResizeEvent),
    emitted (onResizeHandler props st e data position handlerName)
    = [ResizeCall f (i props) gw gh payload]
    /\ (Qmax (minW props) 1 <= gw /\ bound_le gw (maxW props))
    /\ (minH props <= gh /\ bound_le gh (maxH props))
    /\ (forall node : HTMLElement,
          rd_node data = Some node ->
          let corrected :=
            resizeItemInDirection (rd_handle data) position (rd_size data)
              (containerWidth props) in
          let cells :=
            calcWH (getPositionParams props) (width corrected)
              (height corrected) (x props) (y props) (rd_handle data) in
          gre_size payload = corrected
          /\ gw = clamp (fst cells) (Qmax (minW props) 1) (maxW props)
          /\ gh = clamp (snd cells) (minH props) (maxH props))
    /\ default_minW defaultProps = 1
    /\ default_minH defaultProps = 1
    /\ default_maxW defaultProps = Infinity
    /\ default_maxH defaultProps = Infinity.
Proof.
  intros Hcb HordW HordH.
  rewrite (onResizeHandler_run helpers props st e data position handlerName
             f Hcb).
  cbv zeta. simpl emitted.
  eexists. eexists. eexists.
  split; [ reflexivity | ].
  split; [ split; [ apply clamp_lower | apply clamp_upper; exact HordW ] | ].
  split; [ split; [ apply clamp_lower | apply clamp_upper; exact HordH ] | ].
  split.
  - intros node Hnode. unfold updatedSize. rewrite Hnode. simpl.
    repeat split.
  - repeat split.
Qed.

Lemma onResizeHandler_grid_bounds_witness :
  exists (gw gh : Q) (payload : GridResizeEvent),
    emitted (onResizeHandler (helpers := SpecHelpers.helpers)
               Scenario.constrainedProps
               (initialInstance (Some Scenario.node)) Scenario.event
               (Scenario.resizeData (Some Scenario.node) se_)
               Scenario.anchorBox onResize_name)
    = [ResizeCall (HostFn 4) "a" gw gh payload]
    /\ (1 <= gw /\ gw <= 6)
    /\ (1 <= gh /\ gh <= 3).
Proof.
  assert (HordW : Qmax 1 1 <= 6) by (vm_compute; discriminate).
  assert (HordH : 1 <= 3) by (vm_compute; discriminate).
  destruct (onResizeHandler_grid_bounds SpecHelpers.helpers
              Scenario.constrainedProps
              (initialInstance (Some Scenario.node)) Scenario.event
              (Scenario.resizeData (Some Scenario.node) se_)
              Scenario.anchorBox onResize_name (HostFn 4)
              eq_refl HordW HordH)
    as [gw [gh [payload [Hcall [[Hw0 Hw1] [[Hh0 Hh1] _]]]]]].
  exists gw, gh, payload.
  split; [ exact Hcall | ].
  split; split; assumption.
Defined.

(** ** Events out of sequence *)

(** C2 (as the handlers behave): a drag-move received while not dragging
    throws when the [onDrag] callback is registered, and a drag-stop
    received while not dragging throws when the [onDragStop] callback is
    registered, each whatever the other callbacks are; the exception leaves
    the handler (and the run of events it is part of) with the instance
    untouched and no call made.  Without its callback such an event is
    ignored.  A resize event never throws, whatever the props and the state
    of [resizing]. *)
Theorem invalid_sequence_errors (helpers : ImportedHelpers) (props : Props) :
  (forall (st : Instance) (e : Event) (data : ReactDraggableCallbackData)
      (f : Callback),
      dragging st = false ->
      props_onDrag props = Some f ->
      onDrag props st e data
      = Thrown st [] "onDrag called before onDragStart."
      /\ forall rest : list (Event * ReactDraggableCallbackData),
           dragMoves props st ((e, data) :: rest)
           = Thrown st [] "onDrag called before onDragStart.")
  /\ (forall (st : Instance) (e : Event) (data : ReactDraggableCallbackData)
         (g : Callback),
         dragging st = false ->
         props_onDragStop props = Some g ->
         onDragStop props st e data
         = Thrown st [] "onDragEnd called before onDragStart.")
  /\ (forall (st : Instance) (e : Event) (data : ReactDraggableCallbackData),
         (props_onDrag props = None ->
          onDrag props st e data = Returned st [])
         /\ (props_onDragStop props = None ->
             onDragStop props st e data = Returned st []))
  /\ (forall (st : Instance) (e : Event) (data : ResizeCallbackData)
         (position : Position) (handlerName : ResizeHandlerName),
         threw (onResizeHandler props st e data position handlerName)
         = false).
Proof.
  split; [ | split; [ | split ] ].
  - intros st e data f Hidle Hmove.
    assert (Hthrow : onDrag props st e data
                     = Thrown st [] "onDrag called before onDragStart.").
    { unfold onDrag. rewrite Hmove, Hidle. reflexivity. }
    split; [ exact Hthrow | ].
    intros rest. simpl. rewrite Hthrow. reflexivity.
  - intros st e data g Hidle Hstop.
    unfold onDragStop. rewrite Hstop, Hidle. reflexivity.
  - intros st e data. split; intros Hnone.
    + unfold onDrag. rewrite Hnone. reflexivity.
    + unfold onDragStop. rewrite Hnone. reflexivity.
  - intros st e data position handlerName. unfold onResizeHandler.
    destruct (props_handler props handlerName); [ | reflexivity ].
    destruct (calcWH _ _ _ _ _ _). reflexivity.
Qed.

Lemma invalid_sequence_errors_witness :
  let st := initialInstance (Some Scenario.node) in
  let data := Scenario.dragData Scenario.node 5 5 in
  threw (onDrag (helpers := SpecHelpers.helpers) Gesture.noStopProps st
           Scenario.event data) = true
  /\ threw (onDragStop (helpers := SpecHelpers.helpers) Scenario.props st
              Scenario.event data) = true
  /\ onDragStop (helpers := SpecHelpers.helpers) Gesture.noStopProps st
       Scenario.event data
     = Returned st [].
Proof.
  cbv zeta.
  destruct (invalid_sequence_errors SpecHelpers.helpers Gesture.noStopProps)
    as [Hmove [_ [Hsilent _]]].
  destruct (invalid_sequence_errors SpecHelpers.helpers Scenario.props)
    as [_ [Hstop _]].
  destruct (Hmove (initialInstance (Some Scenario.node)) Scenario.event
              (Scenario.dragData Scenario.node 5 5) (HostFn 1)
              eq_refl eq_refl) as [Hthrow _].
  rewrite Hthrow.
  rewrite (Hstop (initialInstance (Some Scenario.node)) Scenario.event
             (Scenario.dragData Scenario.node 5 5) (HostFn 3)
             eq_refl eq_refl).
  destruct (Hsilent (initialInstance (Some Scenario.node)) Scenario.event
              (Scenario.dragData Scenario.node 5 5)) as [_ Hnone].
  rewrite (Hnone eq_refl).
  repeat split.
Defined.

(** C2 as stated fails: on a fresh instance ([resizing] unset, not
    dragging) each of the three resize events returns normally and calls its
    callback, and a drag-move or drag-stop whose callback is not registered
    returns silently. *)
Lemma idle_events_without_error_counterexample :
  let st := initialInstance (Some Scenario.node) in
  let data := Scenario.resizeData (Some Scenario.node) se_ in
  let outcome (handlerName : ResizeHandlerName) :=
    onResizeHandler (helpers := SpecHelpers.helpers) Scenario.props st
      Scenario.event data Scenario.anchorBox handlerName in
  resizing st = None
  /\ dragging st = false
  /\ threw (outcome onResize_name) = false
  /\ threw (outcome onResizeStop_name) = false
  /\ threw (outcome onResizeStart_name) = false
  /\ List.length (emitted (outcome onResize_name)) = 1%nat
  /\ onDrag (helpers := SpecHelpers.helpers) Scenario.silentProps st
       Scenario.event (Scenario.dragData Scenario.node 5 5)
     = Returned st []
  /\ onDragStop (helpers := SpecHelpers.helpers) Scenario.silentProps st
       Scenario.event (Scenario.dragData Scenario.node 5 5)
     = Returned st [].
Proof.
  cbv zeta. repeat split.
Qed.

(** ** Drag moves *)

(** What a drag-move does in bounded mode with a positioned ancestor. *)
Lemma onDrag_bounded_run (helpers : ImportedHelpers) (props : Props)
    (st : Instance) (e : Event) (data : ReactDraggableCallbackData)
    (parent : OffsetParent) (f : Callback) :
  props_onDrag props = Some f ->
  dragging st = true ->
  isBounded props = true ->
  offsetParent (dd_node data) = Some parent ->
  let itemWidth :=
    calcGridItemWHPx (w props) (calcGridColWidth (getPositionParams props))
      (fst (margin props)) in
  let itemHeight :=
    calcGridItemWHPx (h props) (rowHeight props) (snd (margin props)) in
  let stored :=
    {| top := clamp (top (dragPosition st) + deltaY data
                     - snd (containerPadding props)) 0
                (Finite (clientHeight parent - itemHeight));
       left := clamp (left (dragPosition st) + deltaX data
                      - fst (containerPadding props)) 0
                 (Finite (containerWidth props - itemWidth)) |} in
  let cell :=
    calcXY (getPositionParams props) (top stored) (left stored) (w props)
      (h props) in
  onDrag props st e data
  = Returned (set_drag st stored true)
      [DragCall f (i props) (fst cell) (snd cell)
         {| gde_e := e; gde_node := dd_node data; newPosition := stored |}].
Proof.
  intros Hcb Hd Hbounded Hparent itemWidth itemHeight stored cell.
  subst cell stored itemHeight itemWidth.
  unfold onDrag, bottomBoundary, rightBoundary.
  rewrite Hcb, Hd, Hbounded, Hparent. simpl.
  destruct (calcXY _ _ _ _ _). reflexivity.
Qed.

(** C4 (as the handler behaves): in bounded mode, with the [onDrag] callback
    registered, after any sequence of drag-moves of a running drag whose
    last event sees a positioned ancestor in which the item fits (item pixel
    width at most [containerWidth], item pixel height at most the ancestor's
    client height), the stored position satisfies
    [0 <= left <= containerWidth - itemWidth] and
    [0 <= top <= clientHeight - itemHeight]. *)
Theorem bounded_drag_containment (helpers : ImportedHelpers) (props : Props)
    (st : Instance) (moves : list (Event * ReactDraggableCallbackData))
    (e : Event) (data : ReactDraggableCallbackData) (parent : OffsetParent)
    (f : Callback) :
  props_onDrag props = Some f ->
  isBounded props = true ->
  dragging st = true ->
  offsetParent (dd_node data) = Some parent ->
  let itemWidth :=
    calcGridItemWHPx (w props) (calcGridColWidth (getPositionParams props))
      (fst (margin props)) in
  let itemHeight :=
    calcGridItemWHPx (h props) (rowHeight props) (snd (margin props)) in
  itemWidth <= containerWidth props ->
  itemHeight <= clientHeight parent ->
  let o := dragMoves props st (moves ++ [(e, data)]) in
  threw o = false
  /\ 0 <= left (dragPosition (final o)) <= containerWidth props - itemWidth
  /\ 0 <= top (dragPosition (final o)) <= clientHeight parent - itemHeight.
Proof.
  intros Hcb Hbounded Hd Hparent itemWidth itemHeight HfitW HfitH o.
  destruct (dragMoves_while_dragging helpers props moves st Hd)
    as [Hret Hstill].
  destruct (dragMoves_app helpers props moves [(e, data)] st Hret)
    as [Hfinal Hthrew].
  subst o. rewrite Hfinal, Hthrew. simpl dragMoves.
  rewrite (onDrag_bounded_run helpers props _ e data parent f Hcb Hstill
             Hbounded Hparent).
  cbv zeta. simpl. fold itemWidth itemHeight.
  split; [ reflexivity | ].
  split; apply clamp_finite_range; lra.
Qed.

Lemma bounded_drag_containment_witness :
  let o :=
    dragMoves (helpers := SpecHelpers.helpers) Scenario.props
      (Scenario.draggingAt 50 50)
      ([(Scenario.event, Scenario.dragData Scenario.node 2000 (-300))]
       ++ [(Scenario.event, Scenario.dragData Scenario.node 700 900)]) in
  threw o = false
  /\ 0 <= left (dragPosition (final o)) <= 1200 - (2 * (1070 / 12) + 10)
  /\ 0 <= top (dragPosition (final o)) <= 600 - 30.
Proof.
  pose proof (bounded_drag_containment SpecHelpers.helpers Scenario.props
                (Scenario.draggingAt 50 50)
                [(Scenario.event, Scenario.dragData Scenario.node 2000 (-300))]
                Scenario.event (Scenario.dragData Scenario.node 700 900)
                (Scenario.container 600) (HostFn 1)
                eq_refl eq_refl eq_refl eq_refl) as Hin.
  cbv zeta in Hin.
  destruct Hin as [Hret [[Hl0 Hl1] [Ht0 Ht1]]].
  - vm_compute. discriminate.
  - vm_compute. discriminate.
  - cbv zeta. split; [ exact Hret | ].
    split; split; assumption.
Defined.

(** C4 as stated fails.  A bounded drag-move of an item four rows (150px)
    high inside an ancestor 100px high stores [top = 0], above the claimed
    upper bound [clientHeight - itemHeight = -50]; no position satisfies the
    claimed range there.  And when the host registered no [onDrag] callback,
    a drag-move leaves the stored position where it was, here at
    [left = 2000], right of the claimed bound. *)
Lemma bounded_drag_containment_counterexample :
  let props := Scenario.gridProps 2 4 true None true in
  let node := Scenario.nodeAt 50 50 100 in
  let o :=
    onDrag (helpers := SpecHelpers.helpers) props
      (Scenario.draggingAt 50 50) Scenario.event
      (Scenario.dragData node 5 5) in
  let itemHeight :=
    SpecHelpers.calcGridItemWHPx (h props) (rowHeight props)
      (snd (margin props)) in
  let silent :=
    onDrag (helpers := SpecHelpers.helpers) Scenario.silentProps
      (Scenario.draggingAt 50 2000) Scenario.event
      (Scenario.dragData Scenario.node 5 5) in
  (isBounded props = true
   /\ offsetParent node = Some (Scenario.container 100)
   /\ threw o = false
   /\ top (dragPosition (final o)) == 0
   /\ 100 - itemHeight == -50
   /\ ~ (0 <= top (dragPosition (final o)) <= 100 - itemHeight))
  /\ (isBounded Scenario.silentProps = true
      /\ props_onDrag Scenario.silentProps = None
      /\ left (dragPosition (final silent)) == 2000
      /\ ~ (left (dragPosition (final silent))
            <= rightBoundary (helpers := SpecHelpers.helpers)
                 Scenario.silentProps)).
Proof.
  cbv zeta. split.
  - repeat split.
    intros [_ Hle]. vm_compute in Hle. apply Hle. reflexivity.
  - repeat split.
    intros Hle. vm_compute in Hle. apply Hle. reflexivity.
Qed.

(** C10 (as the handler behaves): in bounded mode with a positioned
    ancestor, the [onDrag] callback registered and a drag running, each
    drag-move stores
    [top = clamp(previousTop + deltaY - containerPadding[1], 0,
                 clientHeight - itemHeight)] and
    [left = clamp(previousLeft + deltaX - containerPadding[0], 0,
                  containerWidth - itemWidth)], whatever the paddings and the
    deltas are; the stored coordinates are never negative.
    The padding is subtracted on every event: a following move with a zero
    delta strictly decreases a coordinate the first move stored above 0 when
    the padding of its axis is positive, and keeps a coordinate stored as 0
    at 0. *)
Theorem onDrag_bounded_update (helpers : ImportedHelpers) (props : Props)
    (st : Instance) (e1 e2 : Event) (data1 data2 : ReactDraggableCallbackData)
    (parent1 parent2 : OffsetParent) (f : Callback) :
  props_onDrag props = Some f ->
  dragging st = true ->
  isBounded props = true ->
  offsetParent (dd_node data1) = Some parent1 ->
  offsetParent (dd_node data2) = Some parent2 ->
  let padX := fst (containerPadding props) in
  let padY := snd (containerPadding props) in
  let itemWidth :=
    calcGridItemWHPx (w props) (calcGridColWidth (getPositionParams props))
      (fst (margin props)) in
  let itemHeight :=
    calcGridItemWHPx (h props) (rowHeight props) (snd (margin props)) in
  let update (previous : PartialPosition) (data : ReactDraggableCallbackData)
      (parent : OffsetParent) :=
    {| top := clamp (top previous + deltaY data - padY) 0
                (Finite (clientHeight parent - itemHeight));
       left := clamp (left previous + deltaX data - padX) 0
                 (Finite (containerWidth props - itemWidth)) |} in
  let first := onDrag props st e1 data1 in
  let second := onDrag props (final first) e2 data2 in
  let stored1 := dragPosition (final first) in
  let stored2 := dragPosition (final second) in
  stored1 = update (dragPosition st) data1 parent1
  /\ stored2 = update stored1 data2 parent2
  /\ (0 <= top stored1 /\ 0 <= left stored1)
  /\ (deltaY data2 == 0 -> 0 < padY ->
      0 < top stored1 -> top stored2 < top stored1)
  /\ (deltaX data2 == 0 -> 0 < padX ->
      0 < left stored1 -> left stored2 < left stored1)
  /\ (deltaY data2 == 0 -> 0 <= padY ->
      top stored1 == 0 -> top stored2 == 0)
  /\ (deltaX data2 == 0 -> 0 <= padX ->
      left stored1 == 0 -> left stored2 == 0).
Proof.
  intros Hcb Hd Hbounded Hparent1 Hparent2 padX padY itemWidth itemHeight
    update first second stored1 stored2.
  assert (Hfirst : stored1 = update (dragPosition st) data1 parent1).
  { subst stored1 first.
    rewrite (onDrag_bounded_run helpers props st e1 data1 parent1 f Hcb Hd
               Hbounded Hparent1).
    reflexivity. }
  assert (Hstill : dragging (final first) = true).
  { subst first. rewrite onDrag_preserves_dragging. exact Hd. }
  assert (Hsecond : stored2 = update stored1 data2 parent2).
  { subst stored2 second.
    rewrite (onDrag_bounded_run helpers props (final first) e2 data2 parent2
               f Hcb Hstill Hbounded Hparent2).
    reflexivity. }
  split; [ exact Hfirst | ]. split; [ exact Hsecond | ].
  split.
  { rewrite Hfirst. unfold update. simpl top. simpl left.
    split; apply clamp_lower. }
  rewrite Hsecond. unfold update at 1 2 3 4. simpl top. simpl left.
  repeat split.
  - intros HdY Hpad Hpos. apply clamp_below; lra.
  - intros HdX Hpad Hpos. apply clamp_below; lra.
  - intros HdY Hpad Hzero. apply clamp_floor. lra.
  - intros HdX Hpad Hzero. apply clamp_floor. lra.
Qed.

Lemma onDrag_bounded_update_witness :
  let first :=
    onDrag (helpers := SpecHelpers.helpers) Scenario.props
      (Scenario.draggingAt 100 5) Scenario.event
      (Scenario.dragData Scenario.node 0 0) in
  let second :=
    onDrag (helpers := SpecHelpers.helpers) Scenario.props (final first)
      Scenario.event (Scenario.dragData Scenario.node 0 0) in
  top (dragPosition (final first)) == 90
  /\ top (dragPosition (final second)) < top (dragPosition (final first))
  /\ left (dragPosition (final first)) == 0
  /\ left (dragPosition (final second)) == 0.
Proof.
  pose proof (onDrag_bounded_update SpecHelpers.helpers Scenario.props
                (Scenario.draggingAt 100 5) Scenario.event Scenario.event
                (Scenario.dragData Scenario.node 0 0)
                (Scenario.dragData Scenario.node 0 0)
                (Scenario.container 600) (Scenario.container 600) (HostFn 1)
                eq_refl eq_refl eq_refl eq_refl eq_refl) as Hupdate.
  cbv zeta in Hupdate.
  destruct Hupdate as [_ [_ [_ [Htop [_ [_ Hleft]]]]]].
  cbv zeta.
  split; [ reflexivity | ].
  split; [ apply Htop; reflexivity | ].
  split; [ reflexivity | apply Hleft; [ reflexivity | | reflexivity ] ].
  vm_compute. discriminate.
Defined.

(** C10 as stated fails.  With paddings of 10px, two consecutive bounded
    moves with zero deltas from the position (5, 5) both store (0, 0): the
    stored positions do not differ.  And when the host registered no
    [onDrag] callback, a bounded move with zero deltas from (100, 100)
    stores nothing: the position stays (100, 100), not the clamped
    (90, 90). *)
Lemma zero_delta_moves_counterexample :
  let first :=
    onDrag (helpers := SpecHelpers.helpers) Scenario.props
      (Scenario.draggingAt 5 5) Scenario.event
      (Scenario.dragData Scenario.node 0 0) in
  let second :=
    onDrag (helpers := SpecHelpers.helpers) Scenario.props (final first)
      Scenario.event (Scenario.dragData Scenario.node 0 0) in
  let silent :=
    onDrag (helpers := SpecHelpers.helpers) Scenario.silentProps
      (Scenario.draggingAt 100 100) Scenario.event
      (Scenario.dragData Scenario.node 0 0) in
  (isBounded Scenario.props = true
   /\ 0 < fst (containerPadding Scenario.props)
   /\ 0 < snd (containerPadding Scenario.props)
   /\ threw first = false
   /\ threw second = false
   /\ dragPosition (final first) = dragPosition (final second)
   /\ top (dragPosition (final second)) == 0
   /\ left (dragPosition (final second)) == 0)
  /\ (isBounded Scenario.silentProps = true
      /\ props_onDrag Scenario.silentProps = None
      /\ clamp (100 + 0 - 10) 0
           (Finite (bottomBoundary (helpers := SpecHelpers.helpers)
                      Scenario.silentProps (Scenario.container 600)))
         == 90
      /\ top (dragPosition (final silent)) == 100
      /\ ~ top (dragPosition (final silent)) == 90).
Proof.
  cbv zeta. split; repeat split. vm_compute. discriminate.
Qed.

(** ** Properties of the external move injector *)

Lemma neq_number_true (a b : Q) : ~ a == b -> neq_number a b = true.
Proof.
  intros Hne. unfold neq_number.
  destruct (Qeq_bool a b) eqn:Heq; [ | reflexivity ].
  apply Qeq_bool_iff in Heq. contradiction.
Qed.

(** C3 (as the injector behaves): when a [droppingPosition] is supplied, the
    node is mounted, a drag is running and the position differs from the
    previous render's in [left] or [top], [moveDroppingItem] calls [onDrag]
    with [deltaX = droppingPosition.left - dragPosition.left] and
    [deltaY = droppingPosition.top - dragPosition.top]: the deltas are taken
    against the accumulated drag position of the instance. *)
Theorem moveDroppingItem_drag_delta (helpers : ImportedHelpers)
    (props : Props) (st : Instance) (prevDropping : option DroppingPosition)
    (dropping : DroppingPosition) (node : HTMLElement) :
  droppingPosition props = Some dropping ->
  elementRef st = Some node ->
  dragging st = true ->
  let previous :=
    match prevDropping with
    | Some prev => (dp_left prev, dp_top prev)
    | None => (0, 0)
    end in
  ~ dp_left dropping == fst previous \/ ~ dp_top dropping == snd previous ->
  let data :=
    {| dd_node := node;
       deltaX := dp_left dropping - left (dragPosition st);
       deltaY := dp_top dropping - top (dragPosition st) |} in
  droppingAction props st prevDropping = Some (SynthDrag (dp_e dropping) data)
  /\ moveDroppingItem props st prevDropping
     = onDrag props st (dp_e dropping) data.
Proof.
  intros Hdrop Hnode Hd previous Hmoved data.
  assert (Haction : droppingAction props st prevDropping
                    = Some (SynthDrag (dp_e dropping) data)).
  { unfold droppingAction. rewrite Hdrop, Hnode, Hd.
    subst previous data.
    destruct prevDropping as [prev | ]; simpl in *;
      destruct Hmoved as [Hmoved | Hmoved];
      rewrite (neq_number_true _ _ Hmoved);
      try reflexivity;
      destruct (neq_number (dp_left dropping) _); reflexivity. }
  split; [ exact Haction | ].
  unfold moveDroppingItem. rewrite Haction. reflexivity.
Qed.

Lemma moveDroppingItem_drag_delta_witness :
  let props :=
    Scenario.gridProps 2 1 false (Some (Scenario.dropAt 120 130)) true in
  droppingAction props (Scenario.draggingAt 60 40)
    (Some (Scenario.dropAt 100 100))
  = Some (SynthDrag Scenario.event
            (Scenario.dragData Scenario.node (120 - 40) (130 - 60))).
Proof.
  cbv zeta.
  apply (moveDroppingItem_drag_delta SpecHelpers.helpers
           (Scenario.gridProps 2 1 false (Some (Scenario.dropAt 120 130))
              true)
           (Scenario.draggingAt 60 40) (Some (Scenario.dropAt 100 100))
           (Scenario.dropAt 120 130) Scenario.node eq_refl eq_refl eq_refl).
  left. vm_compute. discriminate.
Defined.

(** C3 as stated fails.  An item mounted with the dropping position
    (100, 100) on a node rendered at (40, 60) starts a drag at (40, 60);
    when the next render supplies (120, 130), the synthesized drag-move
    carries the deltas (80, 70), not the difference (20, 30) of the two
    dropping positions.  And while the element reference is empty, nothing
    is synthesized. *)
Lemma dropping_delta_counterexample :
  let node := Scenario.nodeAt 40 60 600 in
  let prevProps :=
    Scenario.gridProps 2 1 false (Some (Scenario.dropAt 100 100)) true in
  let props :=
    Scenario.gridProps 2 1 false (Some (Scenario.dropAt 120 130)) true in
  let mounted :=
    final (componentDidMount (helpers := SpecHelpers.helpers) prevProps
             (initialInstance (Some node))) in
  let unmounted :=
    set_drag (initialInstance None) {| top := 60; left := 40 |} true in
  (exists data : ReactDraggableCallbackData,
      dragging mounted = true
      /\ droppingAction props mounted (droppingPosition prevProps)
         = Some (SynthDrag Scenario.event data)
      /\ componentDidUpdate (helpers := SpecHelpers.helpers) props mounted
           prevProps
         = onDrag (helpers := SpecHelpers.helpers) props mounted
             Scenario.event data
      /\ deltaX data == 80
      /\ deltaY data == 70
      /\ ~ deltaX data == 120 - 100
      /\ ~ deltaY data == 130 - 100)
  /\ (dragging unmounted = true
      /\ droppingAction props unmounted (droppingPosition prevProps) = None
      /\ componentDidUpdate (helpers := SpecHelpers.helpers) props unmounted
           prevProps
         = Returned unmounted []).
Proof.
  cbv zeta. split.
  - eexists.
    split; [ reflexivity | ].
    split; [ vm_compute; reflexivity | ].
    split; [ reflexivity | ].
    repeat split; vm_compute; discriminate.
  - repeat split.
Qed.

(** ** Sequencing *)

Lemma andThen_returned (st : Instance) (k : Instance -> Outcome) :
  andThen (Returned st []) k = k st.
Proof. simpl. destruct (k st); reflexivity. Qed.

Lemma andThen_return (o : Outcome) :
  andThen o (fun st => Returned st []) = o.
Proof.
  destruct o as [st calls | st calls msg]; simpl;
    [ rewrite app_nil_r | ]; reflexivity.
Qed.

Lemma andThen_ext (o : Outcome) (k k' : Instance -> Outcome) :
  (forall st, k st = k' st) -> andThen o k = andThen o k'.
Proof.
  intros Hk. destruct o as [st calls | st calls msg]; simpl;
    [ rewrite Hk | ]; reflexivity.
Qed.

Lemma andThen_assoc (o : Outcome) (k1 k2 : Instance -> Outcome) :
  andThen (andThen o k1) k2 = andThen o (fun st => andThen (k1 st) k2).
Proof.
  destruct o as [st calls | st calls msg]; simpl; [ | reflexivity ].
  destruct (k1 st) as [st1 calls1 | st1 calls1 msg1]; simpl;
    [ | reflexivity ].
  destruct (k2 st1); rewrite app_assoc; reflexivity.
Qed.

Lemma threw_andThen (o : Outcome) (k : Instance -> Outcome) :
  threw (andThen o k) = threw o || threw (k (final o)).
Proof.
  destruct o as [st calls | st calls msg]; simpl; [ | reflexivity ].
  destruct (k st); reflexivity.
Qed.

Lemma final_andThen (o : Outcome) (k : Instance -> Outcome) :
  final (andThen o k) = if threw o then final o else final (k (final o)).
Proof.
  destruct o as [st calls | st calls msg]; simpl; [ | reflexivity ].
  destruct (k st); reflexivity.
Qed.

Lemma emitted_andThen (o : Outcome) (k : Instance -> Outcome) :
  emitted (andThen o k)
  = if threw o then emitted o else emitted o ++ emitted (k (final o)).
Proof.
  destruct o as [st calls | st calls msg]; simpl; [ | reflexivity ].
  destruct (k st); reflexivity.
Qed.

Lemma deliver_app (helpers : ImportedHelpers) (props : Props)
    (events more : list GestureEvent) :
  forall st : Instance,
    deliver props st (events ++ more)
    = andThen (deliver props st events)
        (fun st' => deliver props st' more).
Proof.
  induction events as [ | ev rest IH ]; intros st.
  - simpl app. simpl deliver at 2. rewrite andThen_returned. reflexivity.
  - simpl. rewrite andThen_assoc. apply andThen_ext. exact IH.
Qed.

Lemma deliver_dragEvents (helpers : ImportedHelpers) (props : Props)
    (moves : list (Event * ReactDraggableCallbackData)) :
  forall st : Instance,
    deliver props st (dragEvents moves) = dragMoves props st moves.
Proof.
  induction moves as [ | [e data] rest IH ]; intros st.
  - reflexivity.
  - simpl. apply andThen_ext. exact IH.
Qed.

(** ** What every event respects *)

(** The outcome of one event, handler by handler. *)
Ltac run_handler :=
  unfold dispatch, onResizeStop, onResizeStart, onResize, onDragStart,
    onDrag, onDragStop, onResizeHandler;
  repeat match goal with
    | |- context [match ?t with _ => _ end] =>
      lazymatch t with
      | context [match _ with _ => _ end] => fail
      | _ => destruct t eqn:?
      end
    end;
  simpl in *.

(** X1: a host that registered none of the six callbacks is never
    affected: any sequence of drag and resize events, in any order, returns
    normally, calls nothing and leaves the instance as it was. *)
Theorem deliver_silent_host (helpers : ImportedHelpers) (props : Props)
    (events : list GestureEvent) (st : Instance) :
  props_onDragStart props = None ->
  props_onDrag props = None ->
  props_onDragStop props = None ->
  props_onResizeStart props = None ->
  props_onResize props = None ->
  props_onResizeStop props = None ->
  deliver props st events = Returned st [].
Proof.
  intros Hstart Hmove Hstop HrStart HrMove HrStop.
  induction events as [ | ev rest IH ]; [ reflexivity | ].
  assert (Hone : dispatch props st ev = Returned st []).
  { destruct ev as [e data | e data | e data | [ | | ] e data position];
      unfold dispatch, onResizeStop, onResizeStart, onResize, onDragStart,
        onDrag, onDragStop, onResizeHandler, props_handler;
      rewrite ?Hstart, ?Hmove, ?Hstop, ?HrStart, ?HrMove, ?HrStop;
      reflexivity. }
  simpl. rewrite Hone. simpl. rewrite IH. reflexivity.
Qed.

Lemma deliver_silent_host_witness :
  deliver (helpers := SpecHelpers.helpers) Scenario.silentProps
    (initialInstance (Some Scenario.node)) (Gesture.drag ++ Gesture.resize)
  = Returned (initialInstance (Some Scenario.node)) [].
Proof.
  apply (deliver_silent_host SpecHelpers.helpers Scenario.silentProps);
    reflexivity.
Defined.

Lemma dispatch_frame (helpers : ImportedHelpers) (props : Props)
    (st : Instance) (ev : GestureEvent) :
  let o := dispatch props st ev in
  elementRef (final o) = elementRef st
  /\ (isResizeEvent ev = true ->
      dragPosition (final o) = dragPosition st
      /\ dragging (final o) = dragging st)
  /\ (isResizeEvent ev = false ->
      resizing (final o) = resizing st
      /\ resizePosition (final o) = resizePosition st).
Proof.
  cbv zeta.
  destruct ev as [e data | e data | e data | name e data position];
    simpl isResizeEvent;
    (split; [ | split; intros Hkind; try discriminate Hkind ]);
    try destruct name; run_handler; repeat split; reflexivity.
Qed.

(** X2: drag and resize do not interfere.  No event ever changes the
    element reference; a run of resize events leaves the drag position and
    the [dragging] flag as they were; a run of drag events leaves
    [resizing] and [resizePosition] as they were. *)
Theorem deliver_frame (helpers : ImportedHelpers) (props : Props)
    (events : list GestureEvent) :
  forall st : Instance,
    let o := deliver props st events in
    elementRef (final o) = elementRef st
    /\ (forallb isResizeEvent events = true ->
        dragPosition (final o) = dragPosition st
        /\ dragging (final o) = dragging st)
    /\ (forallb (fun ev => negb (isResizeEvent ev)) events = true ->
        resizing (final o) = resizing st
        /\ resizePosition (final o) = resizePosition st).
Proof.
  induction events as [ | ev rest IH ]; intros st; cbv zeta.
  - simpl. repeat split.
  - simpl deliver. rewrite final_andThen.
    destruct (dispatch_frame helpers props st ev) as [Href [Hres Hdrag]].
    destruct (threw (dispatch props st ev)).
    + split; [ exact Href | ].
      split; simpl forallb; intros Hall;
        apply andb_true_iff in Hall; destruct Hall as [Hev _].
      * apply Hres. exact Hev.
      * apply Hdrag. apply negb_true_iff. exact Hev.
    + destruct (IH (final (dispatch props st ev))) as [Href' [Hres' Hdrag']].
      split; [ congruence | ].
      split; simpl forallb; intros Hall;
        apply andb_true_iff in Hall; destruct Hall as [Hev Hrest].
      * destruct (Hres Hev) as [H1 H2]. destruct (Hres' Hrest) as [H3 H4].
        split; congruence.
      * apply negb_true_iff in Hev.
        destruct (Hdrag Hev) as [H1 H2]. destruct (Hdrag' Hrest) as [H3 H4].
        split; congruence.
Qed.

Lemma deliver_frame_witness :
  let st := Scenario.draggingAt 95 85 in
  let o :=
    deliver (helpers := SpecHelpers.helpers) Scenario.props st
      Gesture.resize in
  dragPosition (final o) = {| top := 95; left := 85 |}
  /\ dragging (final o) = true.
Proof.
  destruct (deliver_frame SpecHelpers.helpers Scenario.props Gesture.resize
              (Scenario.draggingAt 95 85)) as [_ [Hres _]].
  apply Hres. reflexivity.
Defined.

Lemma drag_throw_start (helpers : ImportedHelpers) (props : Props)
    (st : Instance) (e : Event) (data : ReactDraggableCallbackData) :
  threw (onDragStart props st e data) = false.
Proof. run_handler; reflexivity. Qed.

(** X3: the only exceptions are the two sequence errors.  [onDragStart]
    never throws; [onDrag] and [onDragStop] throw exactly when their callback
    is registered and no drag is running, however the node, the deltas and
    the props are. *)
Theorem drag_throw_conditions (helpers : ImportedHelpers) (props : Props)
    (st : Instance) (e : Event) (data : ReactDraggableCallbackData) :
  threw (onDragStart props st e data) = false
  /\ threw (onDrag props st e data)
     = match props_onDrag props with
       | Some _ => negb (dragging st)
       | None => false
       end
  /\ threw (onDragStop props st e data)
     = match props_onDragStop props with
       | Some _ => negb (dragging st)
       | None => false
       end.
Proof.
  split; [ | split ]; run_handler; reflexivity.
Qed.

Lemma dispatch_calls (helpers : ImportedHelpers) (props : Props)
    (st : Instance) (ev : GestureEvent) :
  emitted (dispatch props st ev) = []
  \/ exists c : Call,
       emitted (dispatch props st ev) = [c]
       /\ slotOf props ev = Some (calledFunction c)
       /\ calledItem c = i props.
Proof.
  destruct ev as [e data | e data | e data | name e data position];
    try destruct name; unfold slotOf, props_handler; run_handler;
    solve [ left; reflexivity
          | right; eexists;
            split; [ reflexivity | split; simpl; congruence ] ].
Qed.

(** X4: an event makes at most one call, to the function registered in the
    slot of this very event and with the id of the item; so a run makes at
    most as many calls as it has events, all of them with the item's id and
    to functions the host registered. *)
Theorem deliver_calls (helpers : ImportedHelpers) (props : Props)
    (events : list GestureEvent) :
  forall st : Instance,
    let calls := emitted (deliver props st events) in
    (List.length calls <= List.length events)%nat
    /\ Forall (fun c =>
                 calledItem c = i props
                 /\ exists ev, In ev events
                               /\ slotOf props ev = Some (calledFunction c))
         calls.
Proof.
  induction events as [ | ev rest IH ]; intros st; cbv zeta.
  - simpl. split; [ lia | constructor ].
  - simpl deliver. rewrite emitted_andThen.
    destruct (IH (final (dispatch props st ev))) as [Hlen Hall].
    assert (Hrest : Forall (fun c =>
                      calledItem c = i props
                      /\ exists ev', In ev' (ev :: rest)
                           /\ slotOf props ev' = Some (calledFunction c))
                      (emitted (deliver props
                                  (final (dispatch props st ev)) rest))).
    { eapply Forall_impl; [ | exact Hall ].
      intros c [Hitem [ev' [Hin Hslot]]].
      split; [ exact Hitem | ].
      exists ev'. split; [ right; exact Hin | exact Hslot ]. }
    destruct (dispatch_calls helpers props st ev)
      as [Hnone | [c [Hone [Hslot Hitem]]]].
    + rewrite Hnone. simpl app.
      destruct (threw (dispatch props st ev)).
      * split; [ simpl; lia | constructor ].
      * split; [ simpl; lia | exact Hrest ].
    + rewrite Hone.
      assert (Hc : calledItem c = i props
                   /\ exists ev', In ev' (ev :: rest)
                        /\ slotOf props ev' = Some (calledFunction c)).
      { split; [ exact Hitem | ].
        exists ev. split; [ left; reflexivity | exact Hslot ]. }
      destruct (threw (dispatch props st ev)).
      * split; [ simpl; lia | ]. constructor; [ exact Hc | constructor ].
      * split; [ simpl; lia | ]. constructor; [ exact Hc | exact Hrest ].
Qed.

(** X5: what the host is told is what the instance holds.  The call made by
    a drag-start or a drag-move carries as [newPosition] the drag position
    the handler has just stored, the grid cell [calcXY] gives for it with
    the item's [w] and [h], and the event and the node it was handed. *)
Theorem drag_call_reports_stored_position (helpers : ImportedHelpers)
    (props : Props) (st : Instance) (e : Event)
    (data : ReactDraggableCallbackData) (isStart : bool) :
  let o :=
    if isStart then onDragStart props st e data
    else onDrag props st e data in
  forall c : Call,
    In c (emitted o) ->
    exists f : Callback,
      c = DragCall f (i props)
            (fst (calcXY (getPositionParams props)
                    (top (dragPosition (final o)))
                    (left (dragPosition (final o))) (w props) (h props)))
            (snd (calcXY (getPositionParams props)
                    (top (dragPosition (final o)))
                    (left (dragPosition (final o))) (w props) (h props)))
            {| gde_e := e; gde_node := dd_node data;
               newPosition := dragPosition (final o) |}.
Proof.
  cbv zeta. intros c Hin.
  destruct isStart; revert Hin; run_handler; intros Hin;
    try contradiction;
    (destruct Hin as [Hc | []]; subst c; eexists;
     repeat match goal with
       | H : calcXY _ _ _ _ _ = _ |- _ => rewrite H; clear H
       end;
     reflexivity).
Qed.

Lemma drag_call_reports_stored_position_witness :
  let o :=
    onDrag (helpers := SpecHelpers.helpers) Scenario.props
      (Scenario.draggingAt 100 100) Scenario.event
      (Scenario.dragData Scenario.node 5 5) in
  let c :=
    DragCall (HostFn 1) "a" 1 2
      {| gde_e := Scenario.event; gde_node := Scenario.node;
         newPosition := {| top := 95; left := 95 |} |} in
  In c (emitted o)
  /\ dragPosition (final o) = {| top := 95; left := 95 |}.
Proof.
  cbv zeta. split; [ left; reflexivity | ].
  destruct (drag_call_reports_stored_position SpecHelpers.helpers
              Scenario.props (Scenario.draggingAt 100 100) Scenario.event
              (Scenario.dragData Scenario.node 5 5) false
              (DragCall (HostFn 1) "a" 1 2
                 {| gde_e := Scenario.event; gde_node := Scenario.node;
                    newPosition := {| top := 95; left := 95 |} |})
              (or_introl eq_refl))
    as [f Hcall].
  pose proof (f_equal
                (fun c => match c with
                          | DragCall _ _ _ _ payload => newPosition payload
                          | ResizeCall _ _ _ _ _ => {| top := 0; left := 0 |}
                          end) Hcall) as Hposition.
  symmetry. exact Hposition.
Defined.

(** ** Whole drags *)

Lemma onDragStart_run (helpers : ImportedHelpers) (props : Props)
    (st : Instance) (e : Event) (data : ReactDraggableCallbackData)
    (parent : OffsetParent) (f : Callback) :
  props_onDragStart props = Some f ->
  offsetParent (dd_node data) = Some parent ->
  let position := startPosition props (dd_node data) parent in
  let cell :=
    calcXY (getPositionParams props) (top position) (left position)
      (w props) (h props) in
  onDragStart props st e data
  = Returned (set_drag st position true)
      [DragCall f (i props) (fst cell) (snd cell)
         {| gde_e := e; gde_node := dd_node data;
            newPosition := position |}].
Proof.
  intros Hcb Hparent position cell. subst cell position.
  unfold onDragStart. rewrite Hcb. cbv zeta. rewrite Hparent.
  destruct (calcXY _ _ _ _ _). reflexivity.
Qed.

Lemma onDragStop_run (helpers : ImportedHelpers) (props : Props)
    (st : Instance) (e : Event) (data : ReactDraggableCallbackData)
    (f : Callback) :
  props_onDragStop props = Some f ->
  dragging st = true ->
  let cell :=
    calcXY (getPositionParams props) (top (dragPosition st))
      (left (dragPosition st)) (w props) (h props) in
  onDragStop props st e data
  = Returned (set_drag st {| top := 0; left := 0 |} false)
      [DragCall f (i props) (fst cell) (snd cell)
         {| gde_e := e; gde_node := dd_node data;
            newPosition := dragPosition st |}].
Proof.
  intros Hcb Hd cell. subst cell.
  unfold onDragStop. rewrite Hcb, Hd. simpl negb. cbv iota zeta.
  destruct (calcXY _ _ _ _ _). destruct (dragPosition st). reflexivity.
Qed.

Lemma onDrag_unclamped_run (helpers : ImportedHelpers) (props : Props)
    (st : Instance) (e : Event) (data : ReactDraggableCallbackData)
    (f : Callback) :
  props_onDrag props = Some f ->
  dragging st = true ->
  unclamped props data = true ->
  let stored :=
    {| top := top (dragPosition st) + deltaY data;
       left := left (dragPosition st) + deltaX data |} in
  let cell :=
    calcXY (getPositionParams props) (top stored) (left stored) (w props)
      (h props) in
  onDrag props st e data
  = Returned (set_drag st stored true)
      [DragCall f (i props) (fst cell) (snd cell)
         {| gde_e := e; gde_node := dd_node data; newPosition := stored |}].
Proof.
  intros Hcb Hd Hfree stored cell. subst cell stored.
  unfold onDrag. rewrite Hcb, Hd. simpl negb. cbv iota zeta.
  unfold unclamped in Hfree.
  destruct (isBounded props); simpl in Hfree;
    [ destruct (offsetParent (dd_node data)); [ discriminate Hfree | ] | ];
    simpl; destruct (calcXY _ _ _ _ _); reflexivity.
Qed.

Lemma dragMoves_call_count (helpers : ImportedHelpers) (props : Props)
    (moves : list (Event * ReactDraggableCallbackData)) (f : Callback) :
  props_onDrag props = Some f ->
  forall st : Instance,
    dragging st = true ->
    List.length (emitted (dragMoves props st moves)) = List.length moves.
Proof.
  intros Hcb.
  induction moves as [ | [e data] rest IH ]; intros st Hd;
    [ reflexivity | ].
  simpl dragMoves. rewrite emitted_andThen.
  rewrite (onDrag_returns_while_dragging helpers props st e data Hd).
  rewrite length_app, IH
    by (rewrite onDrag_preserves_dragging; exact Hd).
  simpl List.length. f_equal.
  destruct (dispatch_calls helpers props st (DragEvent e data))
    as [Hnone | [c [Hone _]]]; simpl dispatch in *.
  - exfalso. revert Hnone. unfold onDrag. rewrite Hcb, Hd. simpl.
    destruct (isBounded props);
      [ destruct (offsetParent (dd_node data)) | ];
      destruct (calcXY _ _ _ _ _); discriminate.
  - rewrite Hone. reflexivity.
Qed.

Lemma dragMoves_position (helpers : ImportedHelpers) (props : Props)
    (moves : list (Event * ReactDraggableCallbackData)) (f : Callback) :
  props_onDrag props = Some f ->
  forallb (fun move => unclamped props (snd move)) moves = true ->
  forall st : Instance,
    dragging st = true ->
    dragPosition (final (dragMoves props st moves))
    = applyDeltas (dragPosition st) moves.
Proof.
  intros Hcb.
  induction moves as [ | [e data] rest IH ]; intros Hfree st Hd.
  - reflexivity.
  - simpl in Hfree. apply andb_true_iff in Hfree.
    destruct Hfree as [Hfree Hrest].
    simpl dragMoves. rewrite final_andThen.
    rewrite (onDrag_unclamped_run helpers props st e data f Hcb Hd Hfree).
    cbv zeta. simpl threw. cbv iota. simpl final.
    rewrite (IH Hrest
               (set_drag st
                  {| top := top (dragPosition st) + deltaY data;
                     left := left (dragPosition st) + deltaX data |} true)
               eq_refl).
    reflexivity.
Qed.

(** X6: an unclamped drag only adds its deltas.  With the [onDrag] callback
    registered and a drag running, after any number of moves that are not
    clamped (bounded mode off, or no [offsetParent]) the stored position is
    the one before with the deltas of the moves added one after the other,
    in the order of delivery - no padding is subtracted and nothing is
    clamped; each move has made its call, and nothing was thrown. *)
Theorem dragMoves_accumulate (helpers : ImportedHelpers) (props : Props)
    (moves : list (Event * ReactDraggableCallbackData)) (f : Callback) :
  props_onDrag props = Some f ->
  forallb (fun move => unclamped props (snd move)) moves = true ->
  forall st : Instance,
    dragging st = true ->
    let o := dragMoves props st moves in
    threw o = false
    /\ List.length (emitted o) = List.length moves
    /\ dragPosition (final o) = applyDeltas (dragPosition st) moves.
Proof.
  intros Hcb Hfree st Hd o. subst o.
  split; [ apply (dragMoves_while_dragging helpers props moves st Hd) | ].
  split; [ apply (dragMoves_call_count helpers props moves f Hcb st Hd) | ].
  apply (dragMoves_position helpers props moves f Hcb Hfree st Hd).
Qed.

Lemma dragMoves_accumulate_witness :
  let o :=
    dragMoves (helpers := SpecHelpers.helpers) Gesture.freeProps
      (Scenario.draggingAt 50 50) Gesture.moves in
  threw o = false
  /\ List.length (emitted o) = 3%nat
  /\ dragPosition (final o)
     = {| top := 50 + 10 + 20 + -40; left := 50 + 30 + -5 + 15 |}.
Proof.
  exact (dragMoves_accumulate SpecHelpers.helpers Gesture.freeProps
           Gesture.moves (HostFn 1) eq_refl eq_refl
           (Scenario.draggingAt 50 50) eq_refl).
Defined.

(** X7: a well-formed drag always completes.  With the three drag callbacks
    registered and a positioned ancestor at the start, the sequence start,
    any moves, stop returns normally from any instance (also one left
    dragging), makes one call per event, and leaves the instance idle with
    the drag position reset to (0, 0). *)
Theorem drag_gesture_completes (helpers : ImportedHelpers) (props : Props)
    (st : Instance) (e0 e1 : Event) (d0 d1 : ReactDraggableCallbackData)
    (moves : list (Event * ReactDraggableCallbackData))
    (parent : OffsetParent) (fs fm fe : Callback) :
  props_onDragStart props = Some fs ->
  props_onDrag props = Some fm ->
  props_onDragStop props = Some fe ->
  offsetParent (dd_node d0) = Some parent ->
  let o :=
    deliver props st
      (DragStartEvent e0 d0 :: dragEvents moves ++ [DragStopEvent e1 d1]) in
  threw o = false
  /\ List.length (emitted o) = S (S (List.length moves))
  /\ dragging (final o) = false
  /\ dragPosition (final o) = {| top := 0; left := 0 |}.
Proof.
  intros Hstart Hmove Hstop Hparent o. subst o.
  simpl deliver.
  rewrite (onDragStart_run helpers props st e0 d0 parent fs Hstart Hparent).
  cbv zeta.
  set (st1 := set_drag st (startPosition props (dd_node d0) parent) true).
  assert (Hd1 : dragging st1 = true) by reflexivity.
  destruct (dragMoves_while_dragging helpers props moves st1 Hd1)
    as [Hret Hd2].
  pose proof (dragMoves_call_count helpers props moves fm Hmove st1 Hd1)
    as Hcount.
  set (rest := deliver props st1 (dragEvents moves ++ [DragStopEvent e1 d1])).
  assert (Hrest : threw rest = false
                  /\ List.length (emitted rest) = S (List.length moves)
                  /\ dragging (final rest) = false
                  /\ dragPosition (final rest) = {| top := 0; left := 0 |}).
  { subst rest. rewrite deliver_app, deliver_dragEvents.
    rewrite threw_andThen, final_andThen, emitted_andThen, Hret.
    simpl deliver. rewrite andThen_return. simpl dispatch.
    rewrite (onDragStop_run helpers props _ e1 d1 fe Hstop Hd2).
    cbv zeta. simpl. repeat split.
    rewrite length_app, Hcount. simpl. lia. }
  destruct Hrest as [Hthrew [Hcalls [Hidle Hreset]]].
  rewrite threw_andThen, final_andThen, emitted_andThen.
  cbn [threw final emitted orb]. fold rest.
  rewrite Hthrew, Hidle, Hreset. simpl List.length. rewrite Hcalls.
  repeat split.
Qed.

Lemma drag_gesture_completes_witness :
  let o :=
    deliver (helpers := SpecHelpers.helpers) Scenario.props
      (Scenario.draggingAt 95 85) Gesture.drag in
  threw o = false
  /\ List.length (emitted o) = 5%nat
  /\ dragging (final o) = false
  /\ dragPosition (final o) = {| top := 0; left := 0 |}.
Proof.
  exact (drag_gesture_completes SpecHelpers.helpers Scenario.props
           (Scenario.draggingAt 95 85) Scenario.event Scenario.event
           (Scenario.dragData Scenario.node 0 0)
           (Scenario.dragData Scenario.node 0 0) Gesture.moves
           (Scenario.container 600) (HostFn 2) (HostFn 1) (HostFn 3)
           eq_refl eq_refl eq_refl eq_refl).
Defined.

(** X8: the stop of an unclamped drag reports where the drag went.  In a
    well-formed drag whose moves are not clamped, the last call is the one
    to [onDragStop], and its [newPosition] is the start position read off
    the DOM with the deltas of the moves added one after the other, in the
    order of delivery. *)
Theorem drag_gesture_reports_total (helpers : ImportedHelpers)
    (props : Props) (st : Instance) (e0 e1 : Event)
    (d0 d1 : ReactDraggableCallbackData)
    (moves : list (Event * ReactDraggableCallbackData))
    (parent : OffsetParent) (fs fm fe : Callback) :
  props_onDragStart props = Some fs ->
  props_onDrag props = Some fm ->
  props_onDragStop props = Some fe ->
  offsetParent (dd_node d0) = Some parent ->
  forallb (fun move => unclamped props (snd move)) moves = true ->
  let o :=
    deliver props st
      (DragStartEvent e0 d0 :: dragEvents moves ++ [DragStopEvent e1 d1]) in
  let start := startPosition props (dd_node d0) parent in
  exists (calls : list Call) (gx gy : Q),
    emitted o
    = calls
      ++ [DragCall fe (i props) gx gy
            {| gde_e := e1; gde_node := dd_node d1;
               newPosition := applyDeltas start moves |}].
Proof.
  intros Hstart Hmove Hstop Hparent Hfree o start. subst o.
  simpl deliver.
  rewrite (onDragStart_run helpers props st e0 d0 parent fs Hstart Hparent).
  cbv zeta. fold start.
  set (st1 := set_drag st start true).
  assert (Hd1 : dragging st1 = true) by reflexivity.
  destruct (dragMoves_while_dragging helpers props moves st1 Hd1)
    as [Hret Hd2].
  pose proof (dragMoves_position helpers props moves fm Hmove Hfree st1 Hd1)
    as Hposition.
  rewrite emitted_andThen. cbn [threw final emitted].
  rewrite deliver_app, deliver_dragEvents, emitted_andThen, Hret.
  simpl deliver. rewrite andThen_return. simpl dispatch.
  rewrite (onDragStop_run helpers props _ e1 d1 fe Hstop Hd2).
  cbv zeta. cbn [emitted]. rewrite Hposition.
  eexists. eexists. eexists.
  rewrite app_assoc. reflexivity.
Qed.

Lemma drag_gesture_reports_total_witness :
  exists (calls : list Call) (gx gy : Q),
    emitted (deliver (helpers := SpecHelpers.helpers) Gesture.freeProps
               (initialInstance (Some Scenario.node)) Gesture.drag)
    = calls
      ++ [DragCall (HostFn 3) "a" gx gy
            {| gde_e := Scenario.event; gde_node := Scenario.node;
               newPosition :=
                 applyDeltas
                   (startPosition Gesture.freeProps Scenario.node
                      (Scenario.container 600))
                   Gesture.moves |}].
Proof.
  exact (drag_gesture_reports_total SpecHelpers.helpers Gesture.freeProps
           (initialInstance (Some Scenario.node)) Scenario.event
           Scenario.event (Scenario.dragData Scenario.node 0 0)
           (Scenario.dragData Scenario.node 0 0) Gesture.moves
           (Scenario.container 600) (HostFn 2) (HostFn 1) (HostFn 3)
           eq_refl eq_refl eq_refl eq_refl eq_refl).
Defined.

Lemma dispatch_keeps_dragging (helpers : ImportedHelpers) (props : Props)
    (st : Instance) (ev : GestureEvent) :
  props_onDragStop props = None ->
  dragging st = true ->
  threw (dispatch props st ev) = false
  /\ dragging (final (dispatch props st ev)) = true.
Proof.
  intros Hstop Hd.
  destruct ev as [e data | e data | e data | name e data position];
    try destruct name;
    unfold dispatch, onResizeStop, onResizeStart, onResize, onDragStart,
      onDrag, onDragStop, onResizeHandler;
    rewrite ?Hstop, ?Hd; simpl negb; cbv iota;
    run_handler; split; solve [ reflexivity | assumption ].
Qed.

(** X9: without an [onDragStop] callback a drag never ends.  Once
    [dragging] is set, no sequence of drag and resize events clears it, and
    none of them throws: drag-stops are ignored and drag-moves stay in
    sequence. *)
Theorem dragging_without_onDragStop (helpers : ImportedHelpers)
    (props : Props) (events : list GestureEvent) :
  props_onDragStop props = None ->
  forall st : Instance,
    dragging st = true ->
    threw (deliver props st events) = false
    /\ dragging (final (deliver props st events)) = true.
Proof.
  intros Hstop.
  induction events as [ | ev rest IH ]; intros st Hd.
  - split; [ reflexivity | exact Hd ].
  - destruct (dispatch_keeps_dragging helpers props st ev Hstop Hd)
      as [Hret Hkeep].
    destruct (IH _ Hkeep) as [Hret' Hkeep'].
    simpl deliver. rewrite threw_andThen, final_andThen, Hret.
    split; assumption.
Qed.

Lemma dragging_without_onDragStop_witness :
  let o :=
    deliver (helpers := SpecHelpers.helpers) Gesture.noStopProps
      (Scenario.draggingAt 95 85) (Gesture.drag ++ Gesture.drag) in
  threw o = false /\ dragging (final o) = true.
Proof.
  exact (dragging_without_onDragStop SpecHelpers.helpers Gesture.noStopProps
           (Gesture.drag ++ Gesture.drag) eq_refl
           (Scenario.draggingAt 95 85) eq_refl).
Defined.

(** X10: a drag-start takes no account of what came before.  With the
    callback registered and a positioned ancestor, its outcome is the same
    whatever drag position and [dragging] flag the instance held and
    whatever deltas the event carries: a drag-start during a drag is not
    rejected, it starts over from the position read off the DOM. *)
Theorem onDragStart_starts_over (helpers : ImportedHelpers) (props : Props)
    (st : Instance) (e : Event) (data : ReactDraggableCallbackData)
    (parent : OffsetParent) (f : Callback) (held : PartialPosition)
    (flag : bool) (dx dy : Q) :
  props_onDragStart props = Some f ->
  offsetParent (dd_node data) = Some parent ->
  onDragStart props (set_drag st held flag) e
    {| dd_node := dd_node data; deltaX := dx; deltaY := dy |}
  = onDragStart props st e data.
Proof.
  intros Hcb Hparent.
  rewrite (onDragStart_run helpers props st e data parent f Hcb Hparent).
  rewrite (onDragStart_run helpers props (set_drag st held flag) e
             {| dd_node := dd_node data; deltaX := dx; deltaY := dy |}
             parent f Hcb Hparent).
  reflexivity.
Qed.

Lemma onDragStart_starts_over_witness :
  onDragStart (helpers := SpecHelpers.helpers) Scenario.props
    (Scenario.draggingAt 95 85) Scenario.event
    (Scenario.dragData Scenario.node 7 9)
  = onDragStart (helpers := SpecHelpers.helpers) Scenario.props
      (initialInstance (Some Scenario.node)) Scenario.event
      (Scenario.dragData Scenario.node 0 0).
Proof.
  exact (onDragStart_starts_over SpecHelpers.helpers Scenario.props
           (initialInstance (Some Scenario.node)) Scenario.event
           (Scenario.dragData Scenario.node 0 0) (Scenario.container 600)
           (HostFn 2) {| top := 95; left := 85 |} true 7 9
           eq_refl eq_refl).
Defined.

(** ** The external move injector on every render *)

(** X11: the injector never throws.  Whatever the props, the instance and
    the previous dropping position are, [moveDroppingItem] - and with it
    [componentDidMount] and [componentDidUpdate] - returns normally: it
    only synthesizes a drag-move while a drag is running. *)
Theorem moveDroppingItem_never_throws (helpers : ImportedHelpers)
    (props prevProps : Props) (st : Instance)
    (prevDropping : option DroppingPosition) :
  threw (moveDroppingItem props st prevDropping) = false
  /\ threw (componentDidMount props st) = false
  /\ threw (componentDidUpdate props st prevProps) = false.
Proof.
  assert (Hall : forall prev,
             threw (moveDroppingItem props st prev) = false).
  { intros prev. unfold moveDroppingItem, droppingAction.
    destruct (droppingPosition props) as [dropping | ]; [ | reflexivity ].
    destruct (elementRef st) as [node | ]; [ | reflexivity ].
    destruct prev as [prev | ]; cbv zeta iota beta;
      destruct (dragging st) eqn:Hd; simpl negb; cbv iota;
      try apply drag_throw_start;
      match goal with
      | |- context [if ?b then _ else _] => destruct b
      end;
      try reflexivity;
      apply onDrag_returns_while_dragging; exact Hd. }
  repeat split; apply Hall.
Qed.

(** X12: when the injector does nothing.  [moveDroppingItem] leaves the
    instance untouched and calls nothing when no dropping position is
    supplied, when the element reference is empty, and when a drag is
    running and the dropping position has the [left] and [top] of the
    previous render's (whatever its event object is). *)
Theorem moveDroppingItem_idle (helpers : ImportedHelpers) (props : Props)
    (st : Instance) (prevDropping : option DroppingPosition) :
  droppingPosition props = None
  \/ elementRef st = None
  \/ (dragging st = true
      /\ exists dropping : DroppingPosition,
           droppingPosition props = Some dropping
           /\ dp_left dropping
              == match prevDropping with
                 | Some prev => dp_left prev
                 | None => 0
                 end
           /\ dp_top dropping
              == match prevDropping with
                 | Some prev => dp_top prev
                 | None => 0
                 end) ->
  moveDroppingItem props st prevDropping = Returned st [].
Proof.
  unfold moveDroppingItem, droppingAction.
  intros [Hnone | [Hnone | [Hd [dropping [Hdrop [Hleft Htop]]]]]].
  - rewrite Hnone. reflexivity.
  - rewrite Hnone. destruct (droppingPosition props); reflexivity.
  - rewrite Hdrop, Hd.
    destruct (elementRef st) as [node | ]; [ | reflexivity ].
    unfold neq_number.
    destruct prevDropping as [prev | ]; cbv zeta iota beta;
      apply Qeq_bool_iff in Hleft; apply Qeq_bool_iff in Htop;
      rewrite Hleft, Htop; reflexivity.
Qed.

Lemma moveDroppingItem_idle_witness :
  moveDroppingItem (helpers := SpecHelpers.helpers)
    (Gesture.droppingProps 120 130) (Scenario.draggingAt 60 40)
    (Some {| dp_left := 240 / 2; dp_top := 130; dp_e := RawEvent 7 |})
  = Returned (Scenario.draggingAt 60 40) [].
Proof.
  apply (moveDroppingItem_idle SpecHelpers.helpers).
  right. right. split; [ reflexivity | ].
  exists (Scenario.dropAt 120 130).
  split; [ reflexivity | ]. split; reflexivity.
Defined.

(** X13: a dropping position on an idle instance starts a drag at the
    node, not at the dropping position.  With a dropping position, a mounted
    element and no drag running, [moveDroppingItem] is [onDragStart] on the
    element, whose outcome does not depend on the coordinates of the
    dropping position nor on the previous one; with the callback registered
    and a positioned ancestor, the drag then runs from the offset read off
    the DOM. *)
Theorem moveDroppingItem_starts (helpers : ImportedHelpers) (props : Props)
    (st : Instance) (prevDropping : option DroppingPosition)
    (dropping : DroppingPosition) (node : HTMLElement) (dx dy : Q) :
  droppingPosition props = Some dropping ->
  elementRef st = Some node ->
  dragging st = false ->
  let o := moveDroppingItem props st prevDropping in
  o = onDragStart props st (dp_e dropping)
        {| dd_node := node; deltaX := dx; deltaY := dy |}
  /\ forall (parent : OffsetParent) (f : Callback),
       props_onDragStart props = Some f ->
       offsetParent node = Some parent ->
       dragging (final o) = true
       /\ dragPosition (final o) = startPosition props node parent
       /\ List.length (emitted o) = 1%nat.
Proof.
  intros Hdrop Hnode Hd o.
  assert (Hrun : o = onDragStart props st (dp_e dropping)
                       {| dd_node := node; deltaX := dx; deltaY := dy |}).
  { subst o. unfold moveDroppingItem, droppingAction.
    rewrite Hdrop, Hnode, Hd.
    destruct prevDropping; reflexivity. }
  split; [ exact Hrun | ].
  intros parent f Hcb Hparent. rewrite Hrun.
  rewrite (onDragStart_run helpers props st (dp_e dropping)
             {| dd_node := node; deltaX := dx; deltaY := dy |} parent f Hcb
             Hparent).
  repeat split.
Qed.

Lemma moveDroppingItem_starts_witness :
  let o :=
    componentDidMount (helpers := SpecHelpers.helpers)
      (Gesture.droppingProps 120 130)
      (initialInstance (Some Scenario.node)) in
  dragging (final o) = true
  /\ left (dragPosition (final o)) == 50
  /\ top (dragPosition (final o)) == 50.
Proof.
  destruct (moveDroppingItem_starts SpecHelpers.helpers
              (Gesture.droppingProps 120 130)
              (initialInstance (Some Scenario.node)) None
              (Scenario.dropAt 120 130) Scenario.node 0 0
              eq_refl eq_refl eq_refl) as [_ Hstarted].
  destruct (Hstarted (Scenario.container 600) (HostFn 2) eq_refl eq_refl)
    as [Hd [Hposition _]].
  cbv zeta. unfold componentDidMount.
  split; [ exact Hd | ]. rewrite Hposition. split; reflexivity.
Defined.

(** ** Resize events with a node *)

(** X16: what a notified resize event stores.  With the callback
    registered and a node, the size corrected by [resizeItemInDirection] is
    the override ([resizing]) unless the event is [onResizeStop], which
    clears it; it is the [size] the host is told; and [resizePosition] is
    that size spread over the box the handler was curried with - the
    corrected box itself when the resolver returned [top] and [left]. *)
Theorem onResizeHandler_with_node (helpers : ImportedHelpers)
    (props : Props) (st : Instance) (e : Event) (data : ResizeCallbackData)
    (position : Position) (handlerName : ResizeHandlerName) (f : Callback)
    (node : HTMLElement) :
  props_handler props handlerName = Some f ->
  rd_node data = Some node ->
  let corrected :=
    resizeItemInDirection (rd_handle data) position (rd_size data)
      (containerWidth props) in
  let o := onResizeHandler props st e data position handlerName in
  resizing (final o)
  = match handlerName with
    | onResizeStop_name => None
    | _ => Some corrected
    end
  /\ resizeOverride (final o)
     = match handlerName with
       | onResizeStop_name => None
       | _ => Some (spread position corrected)
       end
  /\ resizePosition (final o) = spread position corrected
  /\ (exists gw gh : Q,
         emitted o
         = [ResizeCall f (i props) gw gh
              {| gre_e := e; gre_node := Some node; gre_size := corrected;
                 gre_handle := rd_handle data |}])
  /\ (forall t l : Q,
         size_top corrected = Some t ->
         size_left corrected = Some l ->
         resizePosition (final o)
         = {| pos_left := l; pos_top := t; pos_width := width corrected;
              pos_height := height corrected |}).
Proof.
  intros Hcb Hnode corrected o. subst o.
  rewrite (onResizeHandler_run helpers props st e data position handlerName
             f Hcb).
  cbv zeta. unfold updatedSize, resizeOverride. rewrite Hnode.
  fold corrected. simpl.
  split; [ destruct handlerName; reflexivity | ].
  split; [ destruct handlerName; reflexivity | ].
  split; [ reflexivity | ].
  split; [ eexists; eexists; reflexivity | ].
  intros t l Htop Hleft. unfold spread. rewrite Htop, Hleft. reflexivity.
Qed.

Lemma onResizeHandler_with_node_witness :
  let o :=
    onResizeStop (helpers := SpecHelpers.helpers) Scenario.props
      (initialInstance (Some Scenario.node)) Scenario.event
      (Scenario.resizeData (Some Scenario.node) nw_) Scenario.anchorBox in
  resizing (final o) = None
  /\ resizePosition (final o)
     = {| pos_left := 150; pos_top := 150; pos_width := 150;
          pos_height := 150 |}.
Proof.
  destruct (onResizeHandler_with_node SpecHelpers.helpers Scenario.props
              (initialInstance (Some Scenario.node)) Scenario.event
              (Scenario.resizeData (Some Scenario.node) nw_)
              Scenario.anchorBox onResizeStop_name (HostFn 6) Scenario.node
              eq_refl eq_refl)
    as [Hres [_ [Hposition _]]].
  cbv zeta. unfold onResizeStop. rewrite Hres, Hposition.
  split; [ reflexivity | vm_compute; reflexivity ].
Defined.

(** X17: resize events are absolute.  The call a resize event makes does
    not depend on the instance, and delivering the same event a second time
    reproduces the outcome of the first: nothing is accumulated between
    resize events, unlike between drag-moves. *)
Theorem onResizeHandler_idempotent (helpers : ImportedHelpers)
    (props : Props) (st other : Instance) (e : Event)
    (data : ResizeCallbackData) (position : Position)
    (handlerName : ResizeHandlerName) :
  let o := onResizeHandler props st e data position handlerName in
  onResizeHandler props (final o) e data position handlerName = o
  /\ emitted (onResizeHandler props other e data position handlerName)
     = emitted o.
Proof.
  cbv zeta. unfold onResizeHandler.
  destruct (props_handler props handlerName); [ | split; reflexivity ].
  destruct (calcWH _ _ _ _ _ _).
  destruct (rd_node data); split; reflexivity.
Qed.

(** ** The props of [DraggableCore] *)

Lemma prefix_append (s t : string) : prefix s (append s t) = true.
Proof.
  induction s as [ | a s IH ]; simpl.
  - destruct t; reflexivity.
  - destruct (Ascii.ascii_dec a a) as [ _ | Hneq ];
      [ exact IH | contradiction Hneq; reflexivity ].
Qed.

(** X18: the resize handle never starts a drag.  Whatever [cancel] prop the
    host supplies, the [cancel] selector handed to [DraggableCore] begins
    with [.react-resizable-handle]; it is exactly that for an empty [cancel]
    and otherwise continues with a comma and the host's selector. *)
Theorem mixinDraggable_cancel (transformScale : Q) (handle cancel : string)
    (isDraggable : bool) :
  let selector :=
    dc_cancel (mixinDraggable transformScale handle cancel isDraggable) in
  prefix ".react-resizable-handle" selector = true
  /\ (cancel = EmptyString -> selector = ".react-resizable-handle"%string)
  /\ (cancel <> EmptyString ->
      selector
      = append ".react-resizable-handle" (append "," cancel)).
Proof.
  cbv zeta. unfold mixinDraggable, dc_cancel.
  split; [ apply prefix_append | ].
  split.
  - intros Hempty. rewrite Hempty. reflexivity.
  - intros Hcancel. destruct cancel; [ contradiction Hcancel | ];
      reflexivity.
Qed.

Lemma mixinDraggable_cancel_witness :
  dc_cancel (mixinDraggable 1 "" ".no-drag" true)
  = ".react-resizable-handle,.no-drag"%string.
Proof.
  destruct (mixinDraggable_cancel 1 "" ".no-drag" true) as [_ [_ Hcancel]].
  rewrite Hcancel; [ reflexivity | discriminate ].
Defined.

(** ** Whole resizes *)

Lemma dispatch_resize_call (helpers : ImportedHelpers) (props : Props)
    (st : Instance) (ev : GestureEvent) :
  isResizeEvent ev = true ->
  slotOf props ev <> None ->
  threw (dispatch props st ev) = false
  /\ List.length (emitted (dispatch props st ev)) = 1%nat.
Proof.
  intros Hkind Hslot.
  destruct ev as [e data | e data | e data | name e data position];
    try discriminate Hkind.
  simpl in Hslot.
  destruct (props_handler props name) as [f | ] eqn:Hcb;
    [ | contradiction Hslot; reflexivity ].
  assert (Hrun : dispatch props st (ResizeEvent name e data position)
                 = onResizeHandler props st e data position name)
    by (destruct name; reflexivity).
  rewrite Hrun.
  rewrite (onResizeHandler_run helpers props st e data position name f Hcb).
  split; reflexivity.
Qed.

(** X19: a resize always completes.  A run of resize events whose callbacks
    are registered never throws and makes exactly one call per event,
    whatever the order of the events and the state of the instance; when it
    ends with an [onResizeStop] that carries a node, the override is cleared
    and [render] goes back to the box of the grid. *)
Theorem resize_gesture_completes (helpers : ImportedHelpers) (props : Props)
    (events : list GestureEvent) (e : Event) (data : ResizeCallbackData)
    (position : Position) (node : HTMLElement) (f : Callback) :
  forallb isResizeEvent events = true ->
  Forall (fun ev => slotOf props ev <> None) events ->
  props_onResizeStop props = Some f ->
  rd_node data = Some node ->
  forall st : Instance,
    let o :=
      deliver props st
        (events ++ [ResizeEvent onResizeStop_name e data position]) in
    threw o = false
    /\ List.length (emitted o) = S (List.length events)
    /\ resizing (final o) = None
    /\ resizeOverride (final o) = None.
Proof.
  intros Hkinds Hslots Hstop Hnode.
  assert (Hlast : forall st,
             let o := dispatch props st
                        (ResizeEvent onResizeStop_name e data position) in
             threw o = false
             /\ List.length (emitted o) = 1%nat
             /\ resizing (final o) = None
             /\ resizeOverride (final o) = None).
  { intros st. cbv zeta. simpl dispatch. unfold onResizeStop.
    rewrite (onResizeHandler_run helpers props st e data position
               onResizeStop_name f Hstop).
    cbv zeta. unfold resizeOverride. rewrite Hnode. repeat split. }
  induction events as [ | ev rest IH ]; intros st; cbv zeta.
  - simpl app. simpl deliver. rewrite andThen_return. apply Hlast.
  - simpl in Hkinds. apply andb_true_iff in Hkinds.
    destruct Hkinds as [Hkind Hkinds].
    inversion Hslots as [ | ev' rest' Hslot Hslots' ]; subst.
    destruct (dispatch_resize_call helpers props st ev Hkind Hslot)
      as [Hret Hone].
    destruct (IH Hkinds Hslots' (final (dispatch props st ev)))
      as [Hret' [Hcount [Hres Hover]]].
    simpl app. simpl deliver.
    rewrite threw_andThen, final_andThen, emitted_andThen, Hret.
    simpl orb. cbv iota.
    rewrite length_app, Hone, Hcount.
    repeat split; assumption.
Qed.

Lemma resize_gesture_completes_witness :
  let o :=
    deliver (helpers := SpecHelpers.helpers) Scenario.props
      (initialInstance (Some Scenario.node)) Gesture.resize in
  threw o = false
  /\ List.length (emitted o) = 3%nat
  /\ resizing (final o) = None
  /\ resizeOverride (final o) = None.
Proof.
  apply (resize_gesture_completes SpecHelpers.helpers Scenario.props
           [ ResizeEvent onResizeStart_name Scenario.event
               (Scenario.resizeData (Some Scenario.node) se_)
               Scenario.anchorBox;
             ResizeEvent onResize_name Scenario.event
               (Scenario.resizeData (Some Scenario.node) se_)
               Scenario.anchorBox ]
           Scenario.event (Scenario.resizeData (Some Scenario.node) se_)
           Scenario.anchorBox Scenario.node (HostFn 6)).
  - reflexivity.
  - repeat constructor; discriminate.
  - reflexivity.
  - reflexivity.
Defined.
